(** * NDVI service (main.py, app.py): shallow embedding and checked properties

    The FastAPI service of [main.py] searches a STAC catalogue for the
    least cloudy Sentinel-2 scene, reads the red (B04) and near-infrared
    (B08) windows covering a bounding box, computes NDVI and returns it as
    a PNG preview or as a GeoTIFF.  The Flask service of [app.py] is a
    wrapper around a managed back end; only its request validation is
    embedded here.

    Conventions of the embedding:
    - Python exceptions are values of [exn]; a computation that touches a
      remote service is a pair of the remote calls it made and its outcome
      (monad [IO]).
    - Georeferencing numbers (coordinates, affine coefficients, window
      offsets, cloud cover) are exact rationals [Q]; Python raises
      [ZeroDivisionError] on a zero divisor and so does the model.
    - Raster samples are IEEE binary32 values ([spec_float] at precision 24,
      [emax] 128), with numpy's masked-array rules written out.
    - The libraries the code calls (numpy.ma, affine, rasterio.windows,
      pystac-client) are modelled from their documented behaviour; remote
      data and opaque encoders are fields of the record [World]. *)

From Stdlib Require Import ZArith QArith Qminmax Qabs List String Ascii Lia Lqa.
From Stdlib Require Import Floats.SpecFloat.
From stdpp Require Import gmap strings list.

Set Default Proof Using "Type".
Local Open Scope Q_scope.

(** ** Python runtime: exceptions and the call log *)

Module Py.

Inductive exn :=
  | KeyError (key : string)
  | TypeError
  | ValueError
  | AttributeError
  | ZeroDivisionError
  | OverflowError
  | WindowError
  | TransformNotInvertibleError
  | RasterioIOError
  | HTTPException (status_code : Z) (detail : string).

Inductive result (A : Type) :=
  | Ok (a : A)
  | Raise (e : exn).
Arguments Ok {A} a.
Arguments Raise {A} e.

Definition rbind {A B} (r : result A) (k : A → result B) : result B :=
  match r with
  | Ok a => k a
  | Raise e => Raise e
  end.

Definition is_ok {A} (r : result A) : bool :=
  match r with Ok _ => true | Raise _ => false end.

(** Python's [x / y] on floats. *)
Definition py_div (x y : Q) : result Q :=
  if Qeq_bool y 0 then Raise ZeroDivisionError else Ok (x / y)%Q.

End Py.
Export Py.

#[global] Instance result_ret : MRet result := @Ok.
#[global] Instance result_bind : MBind result := λ A B k r, rbind r k.

(** ** numpy: binary32 samples, 2-D arrays with broadcasting, masked arrays *)

Module Numpy.

Definition f32 : Type := spec_float.

Definition f32_add : f32 → f32 → f32 := SFadd 24 128.
Definition f32_sub : f32 → f32 → f32 := SFsub 24 128.
Definition f32_mul : f32 → f32 → f32 := SFmul 24 128.
Definition f32_div : f32 → f32 → f32 := SFdiv 24 128.
Definition f32_eqb : f32 → f32 → bool := SFeqb.

(** [astype("float32")] of an integer digital number. *)
Definition f32_of_Z (z : Z) : f32 := binary_normalize 24 128 z 0 false.

Definition f32_zero : f32 := S754_zero false.
Definition f32_one : f32 := f32_of_Z 1.
Definition nan : f32 := S754_nan.

Definition isnan (x : f32) : bool :=
  match x with S754_nan => true | _ => false end.

Definition isfinite (x : f32) : bool :=
  match x with S754_zero _ | S754_finite _ _ _ => true | _ => false end.

(** numpy.ma's [_DomainSafeDivide]: [|a| * tiny >= |b|], evaluated in
    binary64 with [tiny = 2^-1022]. *)
Definition f64_of_f32 (x : f32) : spec_float :=
  match x with
  | S754_finite s m e => binary_round 53 1024 s m e
  | _ => x
  end.

Definition f64_tiny : spec_float := S754_finite false 4503599627370496 (-1074).

Definition domain_safe_divide (a b : f32) : bool :=
  SFleb (SFabs (f64_of_f32 b)) (SFmul 53 1024 (SFabs (f64_of_f32 a)) f64_tiny).

(** A 2-D array: its shape and its samples in row-major order. *)
Record ndarray (A : Type) := NdArray {
  nd_rows : nat;
  nd_cols : nat;
  nd_data : list A
}.
Arguments NdArray {A}.
Arguments nd_rows {A}.
Arguments nd_cols {A}.
Arguments nd_data {A}.

Definition nd_shape {A} (a : ndarray A) : nat * nat := (nd_rows a, nd_cols a).

Definition nd_wf {A} (a : ndarray A) : Prop :=
  length (nd_data a) = (nd_rows a * nd_cols a)%nat.

(** [a[i, j]]; [d] stands for a position outside the buffer. *)
Definition nd_get {A} (d : A) (a : ndarray A) (i j : nat) : A :=
  nth (i * nd_cols a + j)%nat (nd_data a) d.

Definition nd_build {A} (h w : nat) (f : nat → nat → A) : ndarray A :=
  NdArray h w (flat_map (λ i, map (f i) (seq 0 w)) (seq 0 h)).

Definition nd_map {A B} (f : A → B) (a : ndarray A) : ndarray B :=
  NdArray (nd_rows a) (nd_cols a) (map f (nd_data a)).

(** Broadcasting of one axis: equal lengths, or one of them is 1. *)
Definition broadcast_dim (n m : nat) : option nat :=
  if (n =? m)%nat then Some n
  else if (n =? 1)%nat then Some m
  else if (m =? 1)%nat then Some n
  else None.

Definition bidx (n i : nat) : nat := if (n =? 1)%nat then 0%nat else i.

(** An elementwise binary ufunc; numpy raises [ValueError] ("operands
    could not be broadcast together") when the shapes do not agree. *)
Definition nd_broadcast2 {A B C} (da : A) (db : B) (f : A → B → C)
    (a : ndarray A) (b : ndarray B) : result (ndarray C) :=
  match broadcast_dim (nd_rows a) (nd_rows b),
        broadcast_dim (nd_cols a) (nd_cols b) with
  | Some h, Some w =>
      Ok (nd_build h w (λ i j,
            f (nd_get da a (bidx (nd_rows a) i) (bidx (nd_cols a) j))
              (nd_get db b (bidx (nd_rows b) i) (bidx (nd_cols b) j))))
  | _, _ => Raise ValueError
  end.

(** One sample of a [numpy.ma.MaskedArray]: the underlying datum and its
    mask bit ([true] = invalid / no-data). *)
Record mcell (A : Type) := MCell { cdata : A; cmask : bool }.
Arguments MCell {A}.
Arguments cdata {A}.
Arguments cmask {A}.

Definition masked_array (A : Type) : Type := ndarray (mcell A).

Definition mcell_d : mcell f32 := MCell nan true.
Definition bcell_d : mcell bool := MCell false true.

(** [MaskedArray.astype("float32")] on integer digital numbers. *)
Definition ma_astype_f32 (a : masked_array Z) : masked_array f32 :=
  nd_map (λ c, MCell (f32_of_Z (cdata c)) (cmask c)) a.

(** [MaskedArray.__itruediv__] with a scalar: the divisor is replaced by 1
    at masked samples, and samples failing the domain test get masked. *)
Definition ma_itruediv_cell (other : f32) (c : mcell f32) : mcell f32 :=
  let dom := domain_safe_divide (cdata c) other in
  let other1 := if dom then f32_one else other in
  let m := cmask c || dom in
  MCell (f32_div (cdata c) (if m then f32_one else other1)) m.

Definition ma_itruediv_scalar (a : masked_array f32) (other : f32)
    : masked_array f32 :=
  nd_map (ma_itruediv_cell other) a.

(** [numpy.ma.add] / [numpy.ma.subtract] ([_MaskedBinaryOperation]): the
    masks are or-ed and the result is reverted to the first operand's
    datum where masked. *)
Definition ma_binop_cell (f : f32 → f32 → f32) (a b : mcell f32) : mcell f32 :=
  let m := cmask a || cmask b in
  MCell (if m then cdata a else f (cdata a) (cdata b)) m.

Definition ma_add : masked_array f32 → masked_array f32 → result (masked_array f32) :=
  nd_broadcast2 mcell_d mcell_d (ma_binop_cell f32_add).

Definition ma_sub : masked_array f32 → masked_array f32 → result (masked_array f32) :=
  nd_broadcast2 mcell_d mcell_d (ma_binop_cell f32_sub).

(** [numpy.ma.true_divide] ([_DomainedBinaryOperation]): non-finite
    results and samples outside the domain are masked too; masked samples
    are zeroed and then get [mask * da] added back. *)
Definition ma_truediv_cell (a b : mcell f32) : mcell f32 :=
  let r := f32_div (cdata a) (cdata b) in
  let m := negb (isfinite r) || domain_safe_divide (cdata a) (cdata b)
           || cmask a || cmask b in
  MCell (f32_add (if m then f32_zero else r)
                 (f32_mul (if m then f32_one else f32_zero) (cdata a))) m.

Definition ma_truediv : masked_array f32 → masked_array f32 → result (masked_array f32) :=
  nd_broadcast2 mcell_d mcell_d ma_truediv_cell.

(** [MaskedArray.__eq__] with an unmasked scalar: at a masked sample the
    datum of the comparison is the comparison of the two masks, that is
    [False]. *)
Definition ma_eq_scalar_cell (other : f32) (c : mcell f32) : mcell bool :=
  MCell (if cmask c then false else f32_eqb (cdata c) other) (cmask c).

Definition ma_eq_scalar (a : masked_array f32) (other : f32) : masked_array bool :=
  nd_map (ma_eq_scalar_cell other) a.

(** [numpy.where(cond, x, y)] with a scalar [x]: a plain function on the
    data buffers of its arguments; masks are ignored and the result is a
    plain [ndarray]. *)
Definition np_where_scalar (cond : masked_array bool) (x : f32)
    (y : masked_array f32) : result (ndarray f32) :=
  nd_broadcast2 bcell_d mcell_d
    (λ c v, if cdata c then x else cdata v) cond y.

End Numpy.
Export Numpy.

(** ** The index computation of [_read_bands_ndvi] (main.py, lines 124-130) *)

Definition reflectance_scale : f32 := f32_of_Z 10000.

(** [[
    b4 /= 10000.0
    b8 /= 10000.0
    denom = (b8 + b4)
    ndvi = np.where(denom == 0, np.nan, (b8 - b4) / denom).astype("float32")
    ]] *)
Definition ndvi_of_bands (b4 b8 : masked_array f32) : result (ndarray f32) :=
  let b4 := ma_itruediv_scalar b4 reflectance_scale in
  let b8 := ma_itruediv_scalar b8 reflectance_scale in
  denom ← ma_add b8 b4;
  let cond := ma_eq_scalar denom f32_zero in
  diff ← ma_sub b8 b4;
  quot ← ma_truediv diff denom;
  np_where_scalar cond nan quot.

(** The same computation on one pair of samples. *)
Definition ndvi_sample (c4 c8 : mcell f32) : f32 :=
  let c4 := ma_itruediv_cell reflectance_scale c4 in
  let c8 := ma_itruediv_cell reflectance_scale c8 in
  let denom := ma_binop_cell f32_add c8 c4 in
  let cond := ma_eq_scalar_cell f32_zero denom in
  let diff := ma_binop_cell f32_sub c8 c4 in
  let quot := ma_truediv_cell diff denom in
  if cdata cond then nan else cdata quot.

(** ** affine: the six-coefficient pixel-to-CRS mapping *)

Module AffineLib.

(** [Affine(a, b, c, d, e, f)]: [x' = a x + b y + c], [y' = d x + e y + f]. *)
Record Affine := MkAffine {
  aff_a : Q; aff_b : Q; aff_c : Q;
  aff_d : Q; aff_e : Q; aff_f : Q
}.

(** [Affine.__mul__] with a point [(vx, vy)] on the right. *)
Definition apply (s : Affine) (v : Q * Q) : Q * Q :=
  let '(MkAffine sa sb sc sd se sf) := s in
  let '(vx, vy) := v in
  (vx * sa + vy * sb + sc, vx * sd + vy * se + sf).

Definition determinant (s : Affine) : Q :=
  aff_a s * aff_e s - aff_b s * aff_d s.

(** [Affine.__invert__] *)
Definition invert (s : Affine) : result Affine :=
  if Qeq_bool (determinant s) 0 then Raise TransformNotInvertibleError
  else
    let idet := 1 / determinant s in
    let '(MkAffine sa sb sc sd se sf) := s in
    let ra := se * idet in
    let rb := - sb * idet in
    let rd := - sd * idet in
    let re := sa * idet in
    Ok (MkAffine ra rb (- sc * ra - sf * rb) rd re (- sc * rd - sf * re)).

(** Two points with equal coordinates. *)
Definition pt_eq (p q : Q * Q) : Prop := fst p == fst q ∧ snd p == snd q.

End AffineLib.
Export AffineLib.

(** [Affine] as Python holds it: six binary64 coefficients, and the
    operations of the library on them, each product and sum rounded, in
    the order in which Python evaluates them.  The exact record above
    serves the window functions only. *)

Module AffineF.

Definition f64 : Type := spec_float.
Definition f64_add : f64 → f64 → f64 := SFadd 53 1024.
Definition f64_mul : f64 → f64 → f64 := SFmul 53 1024.
Definition f64_zero : f64 := S754_zero false.
Definition f64_one : f64 := binary_normalize 53 1024 1 0 false.

(** Python's [==] on floats. *)
Definition f64_eqb : f64 → f64 → bool := SFeqb.

(** The binary64 nearest to an integer (ties to even); infinite beyond
    the range. *)
Definition f64_of_Z (z : Z) : f64 := binary_normalize 53 1024 z 0 false.

(** The binary64 nearest to a rational (ties to even): a binary64 value
    is mapped to itself. *)
Definition f64_of_Q (q : Q) : f64 :=
  match Qnum q with
  | Z0 => S754_zero false
  | Zpos n => SFdiv 53 1024 (S754_finite false n 0) (S754_finite false (Qden q) 0)
  | Zneg n => SFdiv 53 1024 (S754_finite true n 0) (S754_finite false (Qden q) 0)
  end.

(** The number a finite binary64 stands for. *)
Definition Q_of_f64 (x : f64) : Q :=
  match x with
  | S754_finite s m e => Qred (inject_Z (if s then Zneg m else Zpos m) * Qpower 2 e)
  | _ => 0
  end.

Record Affine64 := MkAffine64 {
  fa : f64; fb : f64; fc : f64;
  fd : f64; fe : f64; ff : f64
}.

(** The coefficients of a transform as the binary64 values Python holds. *)
Definition affine64_of (s : Affine) : Affine64 :=
  MkAffine64 (f64_of_Q (aff_a s)) (f64_of_Q (aff_b s)) (f64_of_Q (aff_c s))
             (f64_of_Q (aff_d s)) (f64_of_Q (aff_e s)) (f64_of_Q (aff_f s)).

(** [Affine.translation(xoff, yoff)] *)
Definition translation64 (xoff yoff : f64) : Affine64 :=
  MkAffine64 f64_one f64_zero xoff f64_zero f64_one yoff.

(** [Affine.__mul__] with an [Affine] on the right. *)
Definition mul64 (s o : Affine64) : Affine64 :=
  let '(MkAffine64 sa sb sc sd se sf) := s in
  let '(MkAffine64 oa ob oc od oe o_f) := o in
  MkAffine64
    (f64_add (f64_mul sa oa) (f64_mul sb od))
    (f64_add (f64_mul sa ob) (f64_mul sb oe))
    (f64_add (f64_add (f64_mul sa oc) (f64_mul sb o_f)) sc)
    (f64_add (f64_mul sd oa) (f64_mul se od))
    (f64_add (f64_mul sd ob) (f64_mul se oe))
    (f64_add (f64_add (f64_mul sd oc) (f64_mul se o_f)) sf).

(** [Affine.__mul__] with a point [(vx, vy)] on the right. *)
Definition apply64 (s : Affine64) (v : f64 * f64) : f64 * f64 :=
  let '(MkAffine64 sa sb sc sd se sf) := s in
  let '(vx, vy) := v in
  (f64_add (f64_add (f64_mul vx sa) (f64_mul vy sb)) sc,
   f64_add (f64_add (f64_mul vx sd) (f64_mul vy se)) sf).

Definition finite64 (x : f64) : Prop :=
  match x with S754_zero _ | S754_finite _ _ _ => True | _ => False end.

(** A transform without infinite or NaN coefficients. *)
Definition finite_affine (t : Affine64) : Prop :=
  finite64 (fa t) ∧ finite64 (fb t) ∧ finite64 (fc t) ∧
  finite64 (fd t) ∧ finite64 (fe t) ∧ finite64 (ff t).

(** Equal as numbers: the same value, or two zeros of either sign. *)
Definition same_float (x y : f64) : Prop :=
  x = y ∨ ∃ s s', x = S754_zero s ∧ y = S754_zero s'.

End AffineF.
Export AffineF.

(** ** rasterio.windows: [Window] and [from_bounds] *)

Module Windows.

Record Window := MkWindow {
  col_off : Q;
  row_off : Q;
  width : Q;
  height : Q
}.

(** [rowcol(transform, x, y, op=float)]: the fractional (row, col) of a
    point, through the inverse transform. *)
Definition rowcol (transform : Affine) (xy : Q * Q) : result (Q * Q) :=
  inv ← invert transform;
  let '(col, row) := apply inv xy in
  Ok (row, col).

Definition Qmin4 (p q r s : Q) : Q := Qmin (Qmin p q) (Qmin r s).
Definition Qmax4 (p q r s : Q) : Q := Qmax (Qmax p q) (Qmax r s).

Definition Qlt_bool (x y : Q) : bool := negb (Qle_bool y x).

(** [from_bounds(left, bottom, right, top, transform)] of rasterio 1.3:
    two sign checks, then the bounding pixel rectangle of the four
    corners of the box [left, right] x [bottom, top]. *)
Definition from_bounds (left bottom right top : Q) (transform : Affine)
    : result Window :=
  sx ← py_div (right - left) (aff_a transform);
  if Qlt_bool sx 0 then Raise WindowError else
  sy ← py_div (bottom - top) (aff_e transform);
  if Qlt_bool sy 0 then Raise WindowError else
  '(r1, c1) ← rowcol transform (left, top);
  '(r2, c2) ← rowcol transform (right, top);
  '(r3, c3) ← rowcol transform (right, bottom);
  '(r4, c4) ← rowcol transform (left, bottom);
  let row_start := Qmin4 r1 r2 r3 r4 in
  let row_stop := Qmax4 r1 r2 r3 r4 in
  let col_start := Qmin4 c1 c2 c3 c4 in
  let col_stop := Qmax4 c1 c2 c3 c4 in
  Ok (MkWindow col_start row_start
               (Qmax (col_stop - col_start) 0)
               (Qmax (row_stop - row_start) 0)).

(** A window covers the fractional pixel position [(row, col)]. *)
Definition covers (w : Window) (rc : Q * Q) : Prop :=
  let '(row, col) := rc in
  col_off w <= col ∧ col <= col_off w + width w ∧
  row_off w <= row ∧ row <= row_off w + height w.

(** Window [w] lies inside window [w']. *)
Definition within (w w' : Window) : Prop :=
  col_off w' <= col_off w ∧ col_off w + width w <= col_off w' + width w' ∧
  row_off w' <= row_off w ∧ row_off w + height w <= row_off w' + height w'.

End Windows.
Export Windows.

(** ** JSON request bodies and the Python operations applied to them *)

Module Json.

#[local] Unset Elimination Schemes.
Inductive json :=
  | JNull
  | JBool (b : bool)
  | JNum (q : Q)
  | JStr (s : string)
  | JArr (l : list json)
  | JObj (m : gmap string json).
#[local] Set Elimination Schemes.

(** Truth value of a Python object ([if not x]). *)
Definition truthy (v : json) : bool :=
  match v with
  | JNull => false
  | JBool b => b
  | JNum q => negb (Qeq_bool q 0)
  | JStr s => negb (String.eqb s EmptyString)
  | JArr l => negb (Nat.eqb (length l) 0)
  | JObj m => negb (Nat.eqb (size m) 0)
  end.

(** [body.get(key)]: [None] when the key is absent; only a dict has [get]. *)
Definition py_get (v : json) (key : string) : result json :=
  match v with
  | JObj m => Ok (default JNull (m !! key))
  | _ => Raise AttributeError
  end.

(** [v[key]] with a string key. *)
Definition py_getitem (v : json) (key : string) : result json :=
  match v with
  | JObj m =>
      match m !! key with
      | Some x => Ok x
      | None => Raise (KeyError key)
      end
  | _ => Raise TypeError
  end.

(** [key in v] *)
Definition py_contains (v : json) (key : string) : result bool :=
  match v with
  | JObj m => Ok (bool_decide (is_Some (m !! key)))
  | JStr s => Ok (bool_decide (is_Some (String.index 0 key s)))
  | JArr l =>
      Ok (existsb (λ x, match x with JStr s => String.eqb s key | _ => false end) l)
  | _ => Raise TypeError
  end.

(** [float(v)]; [float_of_str] is Python's parser of float literals.  A
    JSON number is a Python [int] of any size or a finite [float]: of an
    [int], [float] is the nearest binary64, and [OverflowError] beyond the
    binary64 range; a [float] is returned as it is. *)
Definition py_float (float_of_str : string → option Q) (v : json) : result Q :=
  match v with
  | JNum q =>
      if (Qnum q mod Zpos (Qden q) =? 0)%Z then
        match f64_of_Z (Qnum q / Zpos (Qden q)) with
        | S754_infinity _ => Raise OverflowError
        | x => Ok (Q_of_f64 x)
        end
      else Ok q
  | JBool b => Ok (if b then 1 else 0)
  | JStr s =>
      match float_of_str s with
      | Some q => Ok q
      | None => Raise ValueError
      end
  | _ => Raise TypeError
  end.

End Json.
Export Json.

(** ** STAC items and the remote world *)

Definition BBox : Type := Q * Q * Q * Q.

Record Item := MkItem {
  item_id : string;
  properties : gmap string Q;
  assets : gmap string string      (* band name |-> href *)
}.

(** What the service reaches over the network, in call order. *)
Inductive remote_call :=
  | CatalogSearch (bbox : BBox) (datetime : string) (cloud_lt : Q)
  | RasterOpen (href : string)
  | RasterRead (href : string) (window : Window).

(** A computation with remote calls: the calls made, then the outcome. *)
Record IO (A : Type) := MkIO {
  io_calls : list remote_call;
  io_result : result A
}.
Arguments MkIO {A}.
Arguments io_calls {A}.
Arguments io_result {A}.

Definition io_bind {A B} (m : IO A) (k : A → IO B) : IO B :=
  match io_result m with
  | Ok a => MkIO (io_calls m ++ io_calls (k a)) (io_result (k a))
  | Raise e => MkIO (io_calls m) (Raise e)
  end.

#[global] Instance IO_ret : MRet IO := λ A a, MkIO [] (Ok a).
#[global] Instance IO_bind : MBind IO := λ A B k m, io_bind m k.

Definition lift {A} (r : result A) : IO A := MkIO [] r.
Definition raise {A} (e : exn) : IO A := MkIO [] (Raise e).
Definition remote {A} (c : remote_call) (r : result A) : IO A := MkIO [c] r.

Definition bytes : Type := list Byte.byte.

(** The GeoTIFF creation profile of [_save_geotiff]. *)
Record Profile := MkProfile {
  driver : string;
  p_height : nat;
  p_width : nat;
  count : nat;
  dtype : string;
  crs : string;
  transform : Affine64;
  compress : string;
  nodata : f32
}.

(** The collaborators outside the repository. *)
Record World := MkWorld {
  (** the [sentinel-2-l2a] collection, in catalogue order *)
  catalog : list Item;
  intersects : Item → BBox → bool;
  in_datetime : Item → string → bool;
  (** [rasterio.open(href)]: CRS and transform of the asset *)
  raster_open : string → result (string * Affine);
  (** [src.read(1, window=window, masked=True)] *)
  raster_read : string → Window → result (masked_array Z);
  (** [Transformer.from_crs("EPSG:4326", crs, always_xy=True).transform] *)
  transformer : string → Q * Q → Q * Q;
  to_wkt : string → string;
  (** GDAL's GTiff writer and matplotlib's renderer: opaque encoders,
      which may raise (GDAL refuses a grid without columns or rows) *)
  gtiff_write : Profile → ndarray f32 → result bytes;
  render_png : ndarray f32 → result bytes;
  (** Python's [float(str)] and [str(obj)] *)
  float_of_str : string → option Q;
  str_of : json → string
}.

Definition dquote : string := String (ascii_of_nat 34) EmptyString.

(** [f"{v}"] *)
Definition py_format (W : World) (v : json) : string :=
  match v with
  | JStr s => s
  | _ => str_of W v
  end.

(** ** main.py *)

Section Main.

Variable W : World.

Definition cloud_key : string := "eo:cloud_cover".

(** The catalogue's answer to [CATALOG.search(collections, bbox, datetime,
    query={"eo:cloud_cover": {"lt": limit_cloud}})]: the scenes that
    intersect the box and the range and carry a cloud cover below the
    limit. *)
Definition catalog_search (bbox : BBox) (dt : string) (limit_cloud : Q)
    : list Item :=
  List.filter
    (λ it, intersects W it bbox && in_datetime W it dt &&
           match properties it !! cloud_key with
           | Some cc => Qlt_bool cc limit_cloud
           | None => false
           end)
    (catalog W).

(** [it.properties.get("eo:cloud_cover", 1000)] *)
Definition sort_key (it : Item) : Q := default 1000 (properties it !! cloud_key).

(** [list.sort(key=...)]: stable, ascending. *)
Fixpoint insert_by_key (x : Item) (l : list Item) : list Item :=
  match l with
  | [] => [x]
  | y :: l' =>
      if Qle_bool (sort_key x) (sort_key y) then x :: y :: l'
      else y :: insert_by_key x l'
  end.

Definition sort_by_key (l : list Item) : list Item :=
  foldr insert_by_key [] l.

Definition _pick (bbox : BBox) (dt : string) (limit_cloud : Q)
    : IO (option Item) :=
  items ← remote (CatalogSearch bbox dt limit_cloud)
                 (Ok (catalog_search bbox dt limit_cloud));
  match items with
  | [] => mret None
  | _ :: _ => mret (head (sort_by_key items))
  end.

(** [dt = f"{start}/{end}"] *)
Definition search_dt (start end_ : json) : string :=
  (py_format W start +:+ "/" +:+ py_format W end_)%string.

Definition _search_best_item (bbox : BBox) (start end_ : json)
    (cloud_first : Z) : IO (option Item) :=
  let dt := search_dt start end_ in
  item ← _pick bbox dt (inject_Z cloud_first);
  match item with
  | None => _pick bbox dt 60
  | Some _ => mret item
  end.

(** Lines 110-115: [if out_res:] on an [Optional[float]] ([None] and 0.0
    are false), then the two scale factors, computed and never used. *)
Definition scale_factors (out_res : option Q) (src_transform : Affine)
    : result unit :=
  match out_res with
  | Some r =>
      if negb (Qeq_bool r 0) then
        scale_x ← py_div r (aff_a src_transform);
        scale_y ← py_div r (Qabs (aff_e src_transform));
        Ok ()
      else Ok ()
  | None => Ok ()
  end.

Definition asset_href (item : Item) (band : string) : result string :=
  match assets item !! band with
  | Some href => Ok href
  | None => Raise (KeyError band)
  end.

Definition _read_bands_ndvi (item : Item) (bbox : BBox) (out_res : option Q)
    : IO (ndarray f32 * Affine64 * string) :=
  let '(west, south, east, north) := bbox in
  href4 ← lift (asset_href item "B04");
  href8 ← lift (asset_href item "B08");
  '(src_crs, src_transform) ← remote (RasterOpen href4) (raster_open W href4);
  let '(x_min, y_min) := transformer W src_crs (west, south) in
  let '(x_max, y_max) := transformer W src_crs (east, north) in
  _ ← lift (scale_factors out_res src_transform);
  window ← lift (from_bounds x_min y_min x_max y_max src_transform);
  b4 ← remote (RasterRead href4 window) (raster_read W href4 window);
  let b4 := ma_astype_f32 b4 in
  _ ← remote (RasterOpen href8) (raster_open W href8);
  b8 ← remote (RasterRead href8 window) (raster_read W href8 window);
  let b8 := ma_astype_f32 b8 in
  ndvi ← lift (ndvi_of_bands b4 b8);
  let row_off := f64_of_Q (row_off window) in
  let col_off := f64_of_Q (col_off window) in
  let transform := mul64 (affine64_of src_transform) (translation64 col_off row_off) in
  mret (ndvi, transform, to_wkt W src_crs).

(** The [profile] dictionary of [_save_geotiff]. *)
Definition geotiff_profile (ndvi : ndarray f32) (transform : Affine64)
    (crs_wkt : string) : Profile :=
  let '(height, width) := nd_shape ndvi in
  MkProfile "GTiff" height width 1 "float32" crs_wkt transform "deflate" nan.

Definition _save_geotiff (ndvi : ndarray f32) (transform : Affine64)
    (crs_wkt : string) : result bytes :=
  let profile := geotiff_profile ndvi transform crs_wkt in
  gtiff_write W profile ndvi.

Definition _png_from_ndvi (ndvi : ndarray f32) : result bytes := render_png W ndvi.

Record Response := MkResponse {
  status : Z;
  media_type : string;
  headers : list (string * string);
  content : bytes
}.

(** The status FastAPI answers with: an [HTTPException] carries its own,
    any other exception becomes 500. *)
Definition http_status (r : result Response) : Z :=
  match r with
  | Ok resp => status resp
  | Raise (HTTPException code _) => code
  | Raise _ => 500%Z
  end.

Definition no_imagery : string := "No imagery found for the requested time/area.".

(** [POST /ndvi] *)
Definition ndvi (body : json) : IO Response :=
  bbox ← lift (py_get body "bbox");
  start ← lift (py_get body "startDate");
  end_ ← lift (py_get body "endDate");
  if negb (truthy bbox) || negb (truthy start) || negb (truthy end_)
  then raise (HTTPException 400 "Missing parameters") else
  west ← lift (py_getitem bbox "west" ≫= py_float (float_of_str W));
  south ← lift (py_getitem bbox "south" ≫= py_float (float_of_str W));
  east ← lift (py_getitem bbox "east" ≫= py_float (float_of_str W));
  north ← lift (py_getitem bbox "north" ≫= py_float (float_of_str W));
  let aoi := (west, south, east, north) in
  item ← _search_best_item aoi start end_ 20;
  match item with
  | None => raise (HTTPException 404 no_imagery)
  | Some item =>
      '(ndvi, transform, crs_wkt) ← _read_bands_ndvi item aoi None;
      png_bytes ← lift (_png_from_ndvi ndvi);
      mret (MkResponse 200 "image/png" [] png_bytes)
  end.

(** [POST /ndvi/download] *)
Definition ndvi_download (body : json) : IO Response :=
  bbox ← lift (py_get body "bbox");
  start ← lift (py_get body "startDate");
  end_ ← lift (py_get body "endDate");
  if negb (truthy bbox) || negb (truthy start) || negb (truthy end_)
  then raise (HTTPException 400 "Missing parameters") else
  west ← lift (py_getitem bbox "west" ≫= py_float (float_of_str W));
  south ← lift (py_getitem bbox "south" ≫= py_float (float_of_str W));
  east ← lift (py_getitem bbox "east" ≫= py_float (float_of_str W));
  north ← lift (py_getitem bbox "north" ≫= py_float (float_of_str W));
  let aoi := (west, south, east, north) in
  item ← _search_best_item aoi start end_ 20;
  match item with
  | None => raise (HTTPException 404 no_imagery)
  | Some item =>
      '(ndvi, transform, crs_wkt) ← _read_bands_ndvi item aoi None;
      gtiff ← lift (_save_geotiff ndvi transform crs_wkt);
      let filename :=
        ("NDVI_" +:+ py_format W start +:+ "_" +:+ py_format W end_ +:+ ".tif")%string in
      let headers :=
        [("Content-Disposition",
          "attachment; filename=" +:+ dquote +:+ filename +:+ dquote)%string] in
      mret (MkResponse 200 "image/tiff" headers gtiff)
  end.

(** The part the two routes have in common: request parsing, scene
    search and band reading.  Written once here, to compare the two
    routes against. *)
Definition request_pipeline (body : json)
    : IO (json * json * Item * (ndarray f32 * Affine64 * string)) :=
  bbox ← lift (py_get body "bbox");
  start ← lift (py_get body "startDate");
  end_ ← lift (py_get body "endDate");
  if negb (truthy bbox) || negb (truthy start) || negb (truthy end_)
  then raise (HTTPException 400 "Missing parameters") else
  west ← lift (py_getitem bbox "west" ≫= py_float (float_of_str W));
  south ← lift (py_getitem bbox "south" ≫= py_float (float_of_str W));
  east ← lift (py_getitem bbox "east" ≫= py_float (float_of_str W));
  north ← lift (py_getitem bbox "north" ≫= py_float (float_of_str W));
  let aoi := (west, south, east, north) in
  item ← _search_best_item aoi start end_ 20;
  match item with
  | None => raise (HTTPException 404 no_imagery)
  | Some item =>
      r ← _read_bands_ndvi item aoi None;
      mret (start, end_, item, r)
  end.

Definition download_headers (start end_ : json) : list (string * string) :=
  [("Content-Disposition",
    "attachment; filename=" +:+ dquote +:+
    ("NDVI_" +:+ py_format W start +:+ "_" +:+ py_format W end_ +:+ ".tif")
    +:+ dquote)%string].

(** What each route makes of the outcome of the common part: its
    serializer runs on it and, unless that raises, the answer is 200. *)
Definition png_response (p : json * json * Item * (ndarray f32 * Affine64 * string))
    : result Response :=
  let '(_, _, _, (nd, _, _)) := p in
  png_bytes ← _png_from_ndvi nd;
  Ok (MkResponse 200 "image/png" [] png_bytes).

Definition tiff_response (p : json * json * Item * (ndarray f32 * Affine64 * string))
    : result Response :=
  let '(start, end_, _, (nd, t, wkt)) := p in
  gtiff ← _save_geotiff nd t wkt;
  Ok (MkResponse 200 "image/tiff" (download_headers start end_) gtiff).

End Main.

(** ** app.py: the bounding-box gate shared by its four routes *)

(** [all(k in bbox for k in keys)] *)
Fixpoint py_all_in (v : json) (keys : list string) : result bool :=
  match keys with
  | [] => Ok true
  | k :: ks =>
      py_contains v k ≫= λ b : bool,
      if b then py_all_in v ks else Ok false
  end.

Definition bbox_keys : list string := ["west"; "south"; "east"; "north"]%string.

(** [[
    bbox = data.get('bbox')
    if not bbox or not all(k in bbox for k in ['west', 'south', 'east', 'north']):
        return jsonify({'error': 'Invalid bounding box provided'}), 400
    ]] *)
Definition app_bbox_invalid (data : json) : result bool :=
  bbox ← py_get data "bbox";
  if negb (truthy bbox) then Ok true
  else py_all_in bbox bbox_keys ≫= λ all_in : bool, Ok (negb all_in).

(** The gate runs inside [try: ... except Exception: return ..., 500].
    [Some s] is the status of an early answer, [None] lets the request
    through. *)
Definition app_bbox_gate (data : json) : option Z :=
  match app_bbox_invalid data with
  | Ok true => Some 400%Z
  | Ok false => None
  | Raise _ => Some 500%Z
  end.

(** ** Readings of the contract that are compared with the code *)

(** A sample counts as no-data in a raster written with [profile] when it
    equals the declared [nodata] value; a NaN sample matches a NaN
    declaration. *)
Definition is_nodata (profile : Profile) (v : f32) : bool :=
  (isnan (nodata profile) && isnan v) || f32_eqb v (nodata profile).

(** The four corners of a geographic box. *)
Definition bbox_corners (bbox : BBox) : list (Q * Q) :=
  let '(west, south, east, north) := bbox in
  [(west, south); (east, south); (east, north); (west, north)].

(** Reading of the band-reader contract under which the window read from
    the red band covers all four reprojected corners of the box. *)
Definition window_covers_reprojected_box (W : World) (item : Item) (bbox : BBox)
    : Prop :=
  ∀ out_res calls res h4 w src_crs src,
    _read_bands_ndvi W item bbox out_res = MkIO calls (Ok res) →
    assets item !! "B04" = Some h4 →
    In (RasterRead h4 w) calls →
    raster_open W h4 = Ok (src_crs, src) →
    ∀ corner, In corner (bbox_corners bbox) →
      ∃ rc, rowcol src (transformer W src_crs corner) = Ok rc ∧ covers w rc.

(** Reading of the band-reader contract under which two band windows of
    different shapes make the reader fail. *)
Definition shape_mismatch_fails (W : World) (item : Item) (bbox : BBox) : Prop :=
  ∀ out_res h4 h8 w b4 b8,
    io_calls (_read_bands_ndvi W item bbox out_res)
    = [RasterOpen h4; RasterRead h4 w; RasterOpen h8; RasterRead h8 w] →
    raster_read W h4 w = Ok b4 → raster_read W h8 w = Ok b8 →
    nd_shape b4 ≠ nd_shape b8 →
    ∃ e, io_result (_read_bands_ndvi W item bbox out_res) = Raise e.

(** Reading of the route contract under which a bounding box that lacks
    one of its four keys is answered with status 400. *)
Definition missing_key_is_400 (W : World) (body : json) : Prop :=
  ∀ m key, py_get body "bbox" = Ok (JObj m) → In key bbox_keys → m !! key = None →
    http_status (io_result (ndvi W body)) = 400%Z ∧
    http_status (io_result (ndvi_download W body)) = 400%Z.

(** ** Concrete scenes and requests used in the examples *)

Definition ex_item (id : string) (cc : option Q) : Item :=
  MkItem id
    (match cc with Some c => <[cloud_key := c]> ∅ | None => ∅ end)
    (<["B04" := (id +:+ "/B04.tif")%string]>
       (<["B08" := (id +:+ "/B08.tif")%string]> ∅)).

Definition ex_valid (z : Z) : mcell Z := MCell z false.
Definition ex_nodata (z : Z) : mcell Z := MCell z true.

(** A world with the given catalogue, one native grid for every asset, a
    given reprojection, and the given red and near-infrared windows. *)
Definition ex_world (items : list Item) (src : Affine) (proj : Q * Q → Q * Q)
    (b4 b8 : masked_array Z) : World :=
  MkWorld items (λ _ _, true) (λ _ _, true)
    (λ _, Ok ("EPSG:32637"%string, src))
    (λ href _, Ok (match String.index 0 "B04" href with
                   | Some _ => b4
                   | None => b8
                   end))
    (λ _, proj)
    (λ crs, crs)
    (λ profile _, if (p_width profile =? 0)%nat || (p_height profile =? 0)%nat
                  then Raise RasterioIOError else Ok [])
    (λ _, Ok [])
    (λ _, None) (λ _, "?"%string).

(** A north-up 10 m grid and a linear stand-in for the UTM projection. *)
Definition ex_grid : Affine := MkAffine 10 0 400000 0 (-10) 1000000.
Definition ex_proj (p : Q * Q) : Q * Q :=
  (100000 * fst p - 3400000, 100000 * snd p).

Definition ex_bbox : BBox := (387 # 10, 9, 387003 # 10000, 90001 # 10000).

Definition ex_catalog : list Item :=
  [ex_item "S2A_c45" (Some 45); ex_item "S2B_c12" (Some 12);
   ex_item "S2A_c70" (Some 70); ex_item "S2B_c12b" (Some 12)].

Definition ex_cloudy_catalog : list Item :=
  [ex_item "S2A_c45" (Some 45); ex_item "S2A_c70" (Some 70);
   ex_item "S2B_c30" (Some 30)].

(** Red and near-infrared digital numbers of a 1 x 3 window of a data set
    whose no-data value is 0: vegetation-free ground, a pixel that is
    no-data in the red band only, and a pixel that is no-data in both. *)
Definition ex_b4 : masked_array Z :=
  NdArray 1 3 [ex_valid 1000; ex_nodata 0; ex_nodata 0].
Definition ex_b8 : masked_array Z :=
  NdArray 1 3 [ex_valid 1000; ex_valid 3000; ex_nodata 0].

(** A 1 x 2 window of a data set without no-data value: nothing is masked,
    and the second pixel is 0 in both bands. *)
Definition ex_b4_unmasked : masked_array Z := NdArray 1 2 [ex_valid 1000; ex_valid 0].
Definition ex_b8_unmasked : masked_array Z := NdArray 1 2 [ex_valid 3000; ex_valid 0].

Definition ex_W : World := ex_world ex_catalog ex_grid ex_proj ex_b4 ex_b8.

(** Band windows of different shapes: 1 x 2 against 2 x 2. *)
Definition ex_b4_row : masked_array Z := NdArray 1 2 [ex_valid 1000; ex_valid 500].
Definition ex_b8_square : masked_array Z :=
  NdArray 2 2 [ex_valid 3000; ex_valid 1500; ex_valid 1000; ex_valid 500].
Definition ex_W_mismatch : World :=
  ex_world ex_catalog ex_grid ex_proj ex_b4_row ex_b8_square.

(** A projection under which the geographic box is rotated in the native
    CRS, on a unit grid. *)
Definition ex_unit_grid : Affine := MkAffine 1 0 0 0 (-1) 200.
Definition ex_rot_proj (p : Q * Q) : Q * Q :=
  (100 * fst p - 10 * snd p, 10 * fst p + 100 * snd p).
Definition ex_unit_bbox : BBox := (0, 0, 1, 1).
Definition ex_W_rot : World :=
  ex_world ex_catalog ex_unit_grid ex_rot_proj ex_b4 ex_b8.

(** A sheared grid whose [e] coefficient is zero and whose columns run
    westwards. *)
Definition ex_sheared_grid : Affine := MkAffine (-1) 1 0 1 0 0.
Definition ex_W_sheared : World :=
  ex_world ex_catalog ex_sheared_grid (λ p, p) ex_b4 ex_b8.

(** A box with west = east: the window and both band windows have no
    columns. *)
Definition ex_W_empty_window : World :=
  ex_world ex_catalog ex_grid ex_proj (NdArray 1 0 []) (NdArray 1 0 []).

Definition ex_body_empty_box : json :=
  JObj (<["bbox" := JObj (<["west" := JNum (387 # 10)]> (<["south" := JNum 9]>
                           (<["east" := JNum (387 # 10)]>
                           (<["north" := JNum (90001 # 10000)]> ∅))))]>
        (<["startDate" := JStr "2024-01-01"]>
        (<["endDate" := JStr "2024-03-01"]> ∅))).

Definition ex_bbox_json (with_north : bool) : json :=
  let m : gmap string json :=
    <["west" := JNum (387 # 10)]> (<["south" := JNum 9]>
      (<["east" := JNum (387003 # 10000)]> ∅)) in
  JObj (if with_north then <["north" := JNum (90001 # 10000)]> m else m).

Definition ex_body (with_north : bool) : json :=
  JObj (<["bbox" := ex_bbox_json with_north]>
          (<["startDate" := JStr "2024-01-01"]>
             (<["endDate" := JStr "2024-03-01"]> ∅))).

(** * Properties *)

(** ** Arrays *)

Section ArrayFacts.

Context {A : Type}.

Lemma nth_rows_from (f : nat → nat → A) (d : A) (w h s i j : nat) :
  (i < h)%nat → (j < w)%nat →
  nth (i * w + j)%nat (flat_map (λ r, map (f r) (seq 0 w)) (seq s h)) d
  = f (s + i)%nat j.
Proof.
  revert s i. induction h as [|h IH]; intros s i Hi Hj; [lia|].
  cbn [seq flat_map].
  destruct i as [|i].
  - rewrite app_nth1 by (rewrite length_map, length_seq; lia).
    rewrite (nth_indep _ d (f s 0%nat)) by (rewrite length_map, length_seq; lia).
    rewrite map_nth, seq_nth by lia.
    f_equal; lia.
  - rewrite app_nth2 by (rewrite length_map, length_seq; lia).
    rewrite length_map, length_seq.
    replace (S i * w + j - w)%nat with (i * w + j)%nat by lia.
    rewrite IH by lia. f_equal; lia.
Qed.

Lemma nd_get_build (f : nat → nat → A) (d : A) (h w i j : nat) :
  (i < h)%nat → (j < w)%nat → nd_get d (nd_build h w f) i j = f i j.
Proof.
  intros Hi Hj. unfold nd_get, nd_build; cbn.
  now rewrite nth_rows_from.
Qed.

Lemma nd_build_wf (f : nat → nat → A) (h w : nat) : nd_wf (nd_build h w f).
Proof.
  unfold nd_wf, nd_build; cbn.
  generalize 0%nat at 2.
  induction h as [|h IH]; intros s; cbn; [reflexivity|].
  rewrite length_app, length_map, length_seq, IH. reflexivity.
Qed.

Lemma nd_get_map {B} (g : A → B) (d : A) (d' : B) (a : ndarray A) (i j : nat) :
  nd_wf a → (i < nd_rows a)%nat → (j < nd_cols a)%nat →
  nd_get d' (nd_map g a) i j = g (nd_get d a i j).
Proof.
  intros Hwf Hi Hj. unfold nd_get, nd_map; cbn.
  rewrite (nth_indep _ d' (g d)).
  - apply map_nth.
  - rewrite length_map, Hwf. nia.
Qed.

End ArrayFacts.

Lemma broadcast_dim_refl n : broadcast_dim n n = Some n.
Proof. unfold broadcast_dim. now rewrite Nat.eqb_refl. Qed.

Lemma bidx_lt n i : (i < n)%nat → bidx n i = i.
Proof. unfold bidx. destruct (Nat.eqb_spec n 1); lia. Qed.

(** What an elementwise operation does on equal shapes. *)
Lemma nd_broadcast2_same {A B C} (da : A) (db : B) (f : A → B → C)
    (a : ndarray A) (b : ndarray B) :
  nd_shape a = nd_shape b →
  ∃ out, nd_broadcast2 da db f a b = Ok out ∧
         nd_wf out ∧ nd_shape out = nd_shape a ∧
         ∀ i j, (i < nd_rows a)%nat → (j < nd_cols a)%nat →
                ∀ d, nd_get d out i j = f (nd_get da a i j) (nd_get db b i j).
Proof.
  unfold nd_shape. intros [= Hr Hc]. unfold nd_broadcast2.
  rewrite <- Hr, <- Hc, !broadcast_dim_refl.
  eexists; split; [reflexivity|]. split; [apply nd_build_wf|].
  split; [reflexivity|].
  intros i j Hi Hj d. rewrite nd_get_build by assumption.
  now rewrite !bidx_lt by assumption.
Qed.

(** The shape an elementwise operation answers with, or its failure. *)
Lemma nd_broadcast2_shape {A B C} (da : A) (db : B) (f : A → B → C)
    (a : ndarray A) (b : ndarray B) :
  match broadcast_dim (nd_rows a) (nd_rows b),
        broadcast_dim (nd_cols a) (nd_cols b) with
  | Some h, Some w =>
      ∃ out, nd_broadcast2 da db f a b = Ok out ∧ nd_wf out ∧ nd_shape out = (h, w)
  | _, _ => nd_broadcast2 da db f a b = Raise ValueError
  end.
Proof.
  unfold nd_broadcast2.
  destruct (broadcast_dim (nd_rows a) (nd_rows b)) as [h|];
    destruct (broadcast_dim (nd_cols a) (nd_cols b)) as [w|]; try reflexivity.
  eexists; split; [reflexivity|]. split; [apply nd_build_wf | reflexivity].
Qed.

(** ** The index computation *)

Lemma nd_map_wf {A B} (g : A → B) (a : ndarray A) : nd_wf a → nd_wf (nd_map g a).
Proof. unfold nd_wf, nd_map; cbn. now rewrite length_map. Qed.

Ltac result_bind := unfold mbind, result_bind, rbind.

(** On equal shapes the index is computed sample by sample. *)
Lemma ndvi_of_bands_same_shape (b4 b8 : masked_array f32) :
  nd_wf b4 → nd_wf b8 → nd_shape b4 = nd_shape b8 →
  ∃ out, ndvi_of_bands b4 b8 = Ok out ∧ nd_shape out = nd_shape b4 ∧
         ∀ i j, (i < nd_rows b4)%nat → (j < nd_cols b4)%nat →
                ∀ d, nd_get d out i j
                     = ndvi_sample (nd_get mcell_d b4 i j) (nd_get mcell_d b8 i j).
Proof.
  intros W4 W8 Hs. unfold ndvi_of_bands.
  set (s4 := ma_itruediv_scalar b4 reflectance_scale).
  set (s8 := ma_itruediv_scalar b8 reflectance_scale).
  assert (Hs84 : nd_shape s8 = nd_shape s4) by (unfold nd_shape in *; cbn; congruence).
  assert (Hr : nd_rows s8 = nd_rows b4) by (unfold nd_shape in *; cbn; congruence).
  assert (Hc : nd_cols s8 = nd_cols b4) by (unfold nd_shape in *; cbn; congruence).
  destruct (nd_broadcast2_same mcell_d mcell_d (ma_binop_cell f32_add) s8 s4 Hs84)
    as (denom & Ed & Wd & Sd & Gd).
  destruct (nd_broadcast2_same mcell_d mcell_d (ma_binop_cell f32_sub) s8 s4 Hs84)
    as (diff & Ef & Wf & Sf & Gf).
  assert (Hfd : nd_shape diff = nd_shape denom) by congruence.
  destruct (nd_broadcast2_same mcell_d mcell_d ma_truediv_cell diff denom Hfd)
    as (quot & Eq & Wq & Sq & Gq).
  set (cond := ma_eq_scalar denom f32_zero).
  assert (Hcq : nd_shape cond = nd_shape quot)
    by (unfold nd_shape in *; cbn; congruence).
  destruct (nd_broadcast2_same bcell_d mcell_d
              (λ c v, if cdata c then nan else cdata v) cond quot Hcq)
    as (out & Eo & Wo & So & Go).
  exists out. unfold ma_add, ma_sub, ma_truediv, np_where_scalar.
  rewrite Ed. result_bind. rewrite Ef, Eq. fold cond. rewrite Eo.
  split; [reflexivity|].
  assert (Rd : nd_rows denom = nd_rows b4) by (unfold nd_shape in *; congruence).
  assert (Cd : nd_cols denom = nd_cols b4) by (unfold nd_shape in *; congruence).
  assert (Rf : nd_rows diff = nd_rows b4) by (unfold nd_shape in *; congruence).
  assert (Cf : nd_cols diff = nd_cols b4) by (unfold nd_shape in *; congruence).
  split; [unfold nd_shape in *; cbn in *; congruence|].
  intros i j Hi Hj d.
  rewrite Go by (unfold cond; cbn; lia).
  unfold cond, ma_eq_scalar.
  rewrite (nd_get_map _ mcell_d) by (try assumption; lia).
  rewrite Gq by lia. rewrite !Gd, !Gf by lia.
  unfold s4, s8, ma_itruediv_scalar.
  rewrite !(nd_get_map _ mcell_d) by (unfold nd_shape in *; try assumption; congruence).
  reflexivity.
Qed.

(** A zero denominator at a sample valid in both bands gives NaN. *)
Lemma ndvi_sample_zero_denominator (c4 c8 : mcell f32) :
  let s4 := ma_itruediv_cell reflectance_scale c4 in
  let s8 := ma_itruediv_cell reflectance_scale c8 in
  cmask s4 = false → cmask s8 = false →
  f32_eqb (f32_add (cdata s8) (cdata s4)) f32_zero = true →
  ndvi_sample c4 c8 = nan.
Proof.
  intros s4 s8 M4 M8 Hz. unfold ndvi_sample. fold s4 s8.
  unfold ma_eq_scalar_cell, ma_binop_cell. rewrite M4, M8.
  cbn [orb cdata cmask]. now rewrite Hz.
Qed.

(** At a sample masked in either band the mask is lost: the output is the
    scaled near-infrared datum, whatever the red one is. *)
Lemma ndvi_sample_masked (c4 c8 : mcell f32) :
  cmask c4 || cmask c8 = true →
  ndvi_sample c4 c8
  = f32_add f32_zero
      (f32_mul f32_one (cdata (ma_itruediv_cell reflectance_scale c8))).
Proof.
  intros Hm. unfold ndvi_sample.
  set (s4 := ma_itruediv_cell reflectance_scale c4).
  set (s8 := ma_itruediv_cell reflectance_scale c8).
  assert (Hm' : cmask s8 || cmask s4 = true).
  { unfold s4, s8, ma_itruediv_cell; cbn.
    destruct (cmask c4), (cmask c8); cbn in *; try discriminate;
      rewrite ?orb_true_r; reflexivity. }
  unfold ma_eq_scalar_cell, ma_binop_cell, ma_truediv_cell.
  rewrite Hm'. cbn [cdata cmask]. rewrite !orb_true_r. reflexivity.
Qed.

(** ** Catalog search *)

Lemma Qlt_bool_iff (x y : Q) : Qlt_bool x y = true ↔ x < y.
Proof.
  unfold Qlt_bool. rewrite negb_true_iff. split.
  - intros H. apply Qnot_le_lt. intros Hle.
    apply Qle_bool_iff in Hle. congruence.
  - intros H. destruct (Qle_bool y x) eqn:E; [|reflexivity].
    apply Qle_bool_iff in E. exfalso. apply (Qlt_not_le _ _ H E).
Qed.

Section SearchFacts.

Variable W : World.

Lemma in_insert_by_key x y l :
  In x (insert_by_key y l) ↔ x = y ∨ In x l.
Proof.
  induction l as [|z l IH]; cbn.
  - intuition.
  - destruct (Qle_bool (sort_key y) (sort_key z)); cbn; [intuition|].
    rewrite IH. intuition.
Qed.

Lemma in_sort_by_key x l : In x (sort_by_key l) ↔ In x l.
Proof.
  induction l as [|y l IH]; cbn; [reflexivity|].
  rewrite in_insert_by_key, IH. intuition.
Qed.

Lemma sort_by_key_nonempty y l : sort_by_key (y :: l) ≠ [].
Proof.
  intros E. assert (H : In y (sort_by_key (y :: l))) by (apply in_sort_by_key; now left).
  rewrite E in H. destruct H.
Qed.

Lemma head_sort_by_key_in l x : head (sort_by_key l) = Some x → In x l.
Proof.
  intros H. apply in_sort_by_key.
  destruct (sort_by_key l); [discriminate|]. injection H as ->. now left.
Qed.

(** The head of the sorted list has the least key. *)
Lemma head_insert_by_key_least y l x :
  (∀ z, head l = Some z → ∀ u, In u l → sort_key z <= sort_key u) →
  head (insert_by_key y l) = Some x →
  ∀ u, In u (insert_by_key y l) → sort_key x <= sort_key u.
Proof.
  intros Hl Hx u Hu. apply in_insert_by_key in Hu.
  destruct l as [|z l]; cbn in *.
  - injection Hx as <-. destruct Hu as [->|[]]. apply Qle_refl.
  - specialize (Hl z eq_refl).
    destruct (Qle_bool (sort_key y) (sort_key z)) eqn:E; cbn in Hx; injection Hx as <-.
    + apply Qle_bool_iff in E.
      destruct Hu as [->|Hu]; [apply Qle_refl|].
      eapply Qle_trans; [exact E|]. now apply Hl.
    + assert (sort_key z < sort_key y).
      { apply Qnot_le_lt. intros Hle. apply Qle_bool_iff in Hle. congruence. }
      destruct Hu as [->|Hu]; [now apply Qlt_le_weak|]. now apply Hl.
Qed.

Lemma head_sort_by_key_least l x :
  head (sort_by_key l) = Some x → ∀ u, In u l → sort_key x <= sort_key u.
Proof.
  revert x. induction l as [|y l IH]; intros x Hx u Hu; [destruct Hu|].
  cbn in Hx. apply (head_insert_by_key_least y (sort_by_key l) x).
  - intros z Hz v Hv. apply (IH z Hz). now apply in_sort_by_key.
  - exact Hx.
  - change (In u (sort_by_key (y :: l))). now apply in_sort_by_key.
Qed.

Lemma in_catalog_search it bbox dt limit :
  In it (catalog_search W bbox dt limit) →
  ∃ cc, properties it !! cloud_key = Some cc ∧ cc < limit.
Proof.
  unfold catalog_search. rewrite filter_In. intros [_ H].
  apply andb_true_iff in H as [_ H].
  destruct (properties it !! cloud_key) as [cc|]; [|discriminate].
  exists cc. split; [reflexivity|]. now apply Qlt_bool_iff.
Qed.

(** One catalogue query: what [_pick] logs and what it answers. *)
Lemma pick_spec bbox dt limit :
  _pick W bbox dt limit
  = MkIO [CatalogSearch bbox dt limit]
         (Ok (head (sort_by_key (catalog_search W bbox dt limit)))).
Proof.
  unfold _pick, mbind, IO_bind, io_bind, remote, mret, IO_ret. cbn.
  destruct (catalog_search W bbox dt limit); reflexivity.
Qed.

Lemma pick_none_iff bbox dt limit :
  head (sort_by_key (catalog_search W bbox dt limit)) = None
  ↔ catalog_search W bbox dt limit = [].
Proof.
  split.
  - destruct (catalog_search W bbox dt limit) as [|y l] eqn:E; [reflexivity|].
    intros H. pose proof (sort_by_key_nonempty y l) as Hn.
    destruct (sort_by_key (y :: l)); [congruence | discriminate].
  - intros ->. reflexivity.
Qed.

(** The two tiers of [_search_best_item], written out. *)
Lemma search_best_item_spec bbox start end_ cloud_first :
  let dt := search_dt W start end_ in
  _search_best_item W bbox start end_ cloud_first
  = match head (sort_by_key (catalog_search W bbox dt (inject_Z cloud_first))) with
    | Some it => MkIO [CatalogSearch bbox dt (inject_Z cloud_first)] (Ok (Some it))
    | None =>
        MkIO [CatalogSearch bbox dt (inject_Z cloud_first); CatalogSearch bbox dt 60]
             (Ok (head (sort_by_key (catalog_search W bbox dt 60))))
    end.
Proof.
  intros dt. unfold _search_best_item. fold dt.
  rewrite !pick_spec. unfold mbind, IO_bind, io_bind. cbn [io_result io_calls].
  destruct (head (sort_by_key (catalog_search W bbox dt (inject_Z cloud_first))));
    reflexivity.
Qed.

End SearchFacts.

(** ** The band reader, step by step *)

Ltac io_unfold :=
  unfold mbind, IO_bind, io_bind, lift, remote, raise, mret, IO_ret;
  cbn [io_calls io_result app].

Section ReaderFacts.

Variable W : World.

(** Every way [_read_bands_ndvi] can end, with the remote calls made up
    to that point. *)
Lemma read_bands_ndvi_unfold item west south east north out_res :
  _read_bands_ndvi W item (west, south, east, north) out_res
  = match asset_href item "B04", asset_href item "B08" with
    | Raise e, _ => MkIO [] (Raise e)
    | Ok _, Raise e => MkIO [] (Raise e)
    | Ok h4, Ok h8 =>
      match raster_open W h4 with
      | Raise e => MkIO [RasterOpen h4] (Raise e)
      | Ok (src_crs, src) =>
        let sw := transformer W src_crs (west, south) in
        let ne := transformer W src_crs (east, north) in
        match scale_factors out_res src with
        | Raise e => MkIO [RasterOpen h4] (Raise e)
        | Ok _ =>
          match from_bounds (fst sw) (snd sw) (fst ne) (snd ne) src with
          | Raise e => MkIO [RasterOpen h4] (Raise e)
          | Ok w =>
            match raster_read W h4 w with
            | Raise e => MkIO [RasterOpen h4; RasterRead h4 w] (Raise e)
            | Ok b4 =>
              match raster_open W h8 with
              | Raise e =>
                  MkIO [RasterOpen h4; RasterRead h4 w; RasterOpen h8] (Raise e)
              | Ok _ =>
                match raster_read W h8 w with
                | Raise e =>
                    MkIO [RasterOpen h4; RasterRead h4 w; RasterOpen h8;
                          RasterRead h8 w] (Raise e)
                | Ok b8 =>
                    MkIO [RasterOpen h4; RasterRead h4 w; RasterOpen h8;
                          RasterRead h8 w]
                      (nd ← ndvi_of_bands (ma_astype_f32 b4) (ma_astype_f32 b8);
                       Ok (nd,
                           mul64 (affine64_of src)
                                 (translation64 (f64_of_Q (col_off w))
                                                (f64_of_Q (row_off w))),
                           to_wkt W src_crs))
                end
              end
            end
          end
        end
      end
    end.
Proof.
  unfold _read_bands_ndvi. io_unfold.
  destruct (asset_href item "B04") as [h4|]; [|reflexivity]. cbn [io_calls io_result app].
  destruct (asset_href item "B08") as [h8|]; [|reflexivity]. cbn [io_calls io_result app].
  destruct (raster_open W h4) as [[src_crs src]|]; [|reflexivity].
  cbn [io_calls io_result app].
  destruct (transformer W src_crs (west, south)) as [x_min y_min].
  destruct (transformer W src_crs (east, north)) as [x_max y_max].
  cbn [fst snd io_calls io_result app].
  destruct (scale_factors out_res src); [|reflexivity]. cbn [io_calls io_result app].
  destruct (from_bounds x_min y_min x_max y_max src) as [w|]; [|reflexivity].
  cbn [io_calls io_result app].
  destruct (raster_read W h4 w) as [b4|]; [|reflexivity]. cbn [io_calls io_result app].
  destruct (raster_open W h8); [|reflexivity]. cbn [io_calls io_result app].
  destruct (raster_read W h8 w) as [b8|]; [|reflexivity]. cbn [io_calls io_result app].
  destruct (ndvi_of_bands (ma_astype_f32 b4) (ma_astype_f32 b8)); reflexivity.
Qed.

(** A returned triple means that every step went through. *)
Lemma read_bands_ndvi_ok item west south east north out_res calls nd t wkt :
  _read_bands_ndvi W item (west, south, east, north) out_res
  = MkIO calls (Ok (nd, t, wkt)) →
  ∃ h4 h8 src_crs src w b4 b8,
    assets item !! "B04" = Some h4 ∧ assets item !! "B08" = Some h8 ∧
    raster_open W h4 = Ok (src_crs, src) ∧
    scale_factors out_res src = Ok () ∧
    from_bounds (fst (transformer W src_crs (west, south)))
                (snd (transformer W src_crs (west, south)))
                (fst (transformer W src_crs (east, north)))
                (snd (transformer W src_crs (east, north))) src = Ok w ∧
    raster_read W h4 w = Ok b4 ∧ raster_read W h8 w = Ok b8 ∧
    calls = [RasterOpen h4; RasterRead h4 w; RasterOpen h8; RasterRead h8 w] ∧
    ndvi_of_bands (ma_astype_f32 b4) (ma_astype_f32 b8) = Ok nd ∧
    t = mul64 (affine64_of src)
              (translation64 (f64_of_Q (col_off w)) (f64_of_Q (row_off w))) ∧
    wkt = to_wkt W src_crs.
Proof.
  rewrite read_bands_ndvi_unfold. unfold asset_href.
  destruct (assets item !! "B04") as [h4|] eqn:E4; [|discriminate].
  destruct (assets item !! "B08") as [h8|] eqn:E8; [|discriminate].
  destruct (raster_open W h4) as [[src_crs src]|] eqn:Eo; [|discriminate].
  cbv zeta.
  destruct (scale_factors out_res src) as [[]|] eqn:Es; [|discriminate].
  destruct (from_bounds _ _ _ _ src) as [w|] eqn:Ew; [|discriminate].
  destruct (raster_read W h4 w) as [b4|] eqn:Er4; [|discriminate].
  destruct (raster_open W h8); [|discriminate].
  destruct (raster_read W h8 w) as [b8|] eqn:Er8; [|discriminate].
  destruct (ndvi_of_bands _ _) as [nd'|] eqn:En; result_bind; [|discriminate].
  intros [= <- <- <- <-].
  exists h4, h8, src_crs, src, w, b4, b8. repeat split; assumption || reflexivity.
Qed.

End ReaderFacts.

(** ** Affine transforms and windows *)

Lemma Qmin4_le (p q r s : Q) :
  Qmin4 p q r s <= p ∧ Qmin4 p q r s <= q ∧ Qmin4 p q r s <= r ∧ Qmin4 p q r s <= s.
Proof.
  unfold Qmin4.
  pose proof (Q.le_min_l (Qmin p q) (Qmin r s)) as Hl.
  pose proof (Q.le_min_r (Qmin p q) (Qmin r s)) as Hr.
  repeat split.
  - exact (Qle_trans _ _ _ Hl (Q.le_min_l p q)).
  - exact (Qle_trans _ _ _ Hl (Q.le_min_r p q)).
  - exact (Qle_trans _ _ _ Hr (Q.le_min_l r s)).
  - exact (Qle_trans _ _ _ Hr (Q.le_min_r r s)).
Qed.

Lemma Qmax4_ge (p q r s : Q) :
  p <= Qmax4 p q r s ∧ q <= Qmax4 p q r s ∧ r <= Qmax4 p q r s ∧ s <= Qmax4 p q r s.
Proof.
  unfold Qmax4.
  pose proof (Q.le_max_l (Qmax p q) (Qmax r s)) as Hl.
  pose proof (Q.le_max_r (Qmax p q) (Qmax r s)) as Hr.
  repeat split.
  - exact (Qle_trans _ _ _ (Q.le_max_l p q) Hl).
  - exact (Qle_trans _ _ _ (Q.le_max_r p q) Hl).
  - exact (Qle_trans _ _ _ (Q.le_max_l r s) Hr).
  - exact (Qle_trans _ _ _ (Q.le_max_r r s) Hr).
Qed.

Lemma Qmin4_glb (p q r s m : Q) :
  m <= p → m <= q → m <= r → m <= s → m <= Qmin4 p q r s.
Proof. intros. unfold Qmin4. repeat apply Q.min_glb; assumption. Qed.

Lemma Qmax4_lub (p q r s m : Q) :
  p <= m → q <= m → r <= m → s <= m → Qmax4 p q r s <= m.
Proof. intros. unfold Qmax4. repeat apply Q.max_lub; assumption. Qed.

Lemma Qmax_extent (lo hi : Q) : lo <= hi → lo + Qmax (hi - lo) 0 == hi.
Proof.
  intros H. rewrite Q.max_l by lra. ring.
Qed.

(** What [from_bounds] answers when it answers. *)
Lemma from_bounds_ok (left bottom right top : Q) (src : Affine) (w : Window) :
  from_bounds left bottom right top src = Ok w →
  ∃ r1 c1 r2 c2 r3 c3 r4 c4,
    rowcol src (left, top) = Ok (r1, c1) ∧ rowcol src (right, top) = Ok (r2, c2) ∧
    rowcol src (right, bottom) = Ok (r3, c3) ∧ rowcol src (left, bottom) = Ok (r4, c4) ∧
    w = MkWindow (Qmin4 c1 c2 c3 c4) (Qmin4 r1 r2 r3 r4)
                 (Qmax (Qmax4 c1 c2 c3 c4 - Qmin4 c1 c2 c3 c4) 0)
                 (Qmax (Qmax4 r1 r2 r3 r4 - Qmin4 r1 r2 r3 r4) 0).
Proof.
  unfold from_bounds. result_bind.
  destruct (py_div (right - left) (aff_a src)) as [sx|]; [|discriminate].
  destruct (Qlt_bool sx 0); [discriminate|].
  destruct (py_div (bottom - top) (aff_e src)) as [sy|]; [|discriminate].
  destruct (Qlt_bool sy 0); [discriminate|].
  destruct (rowcol src (left, top)) as [[r1 c1]|]; [|discriminate].
  destruct (rowcol src (right, top)) as [[r2 c2]|]; [|discriminate].
  destruct (rowcol src (right, bottom)) as [[r3 c3]|]; [|discriminate].
  destruct (rowcol src (left, bottom)) as [[r4 c4]|]; [|discriminate].
  intros [= <-]. exists r1, c1, r2, c2, r3, c3, r4, c4. repeat split.
Qed.

(** The window of [from_bounds] covers the pixel positions of the four
    corners of the native box, and lies inside every window that does. *)
Lemma from_bounds_minimal_cover (left bottom right top : Q) (src : Affine) (w : Window) :
  from_bounds left bottom right top src = Ok w →
  ∃ rc1 rc2 rc3 rc4,
    rowcol src (left, top) = Ok rc1 ∧ rowcol src (right, top) = Ok rc2 ∧
    rowcol src (right, bottom) = Ok rc3 ∧ rowcol src (left, bottom) = Ok rc4 ∧
    covers w rc1 ∧ covers w rc2 ∧ covers w rc3 ∧ covers w rc4 ∧
    ∀ w', covers w' rc1 → covers w' rc2 → covers w' rc3 → covers w' rc4 → within w w'.
Proof.
  intros H. apply from_bounds_ok in H
    as (r1 & c1 & r2 & c2 & r3 & c3 & r4 & c4 & E1 & E2 & E3 & E4 & ->).
  exists (r1, c1), (r2, c2), (r3, c3), (r4, c4).
  repeat (split; [assumption|]).
  destruct (Qmin4_le c1 c2 c3 c4) as (? & ? & ? & ?).
  destruct (Qmin4_le r1 r2 r3 r4) as (? & ? & ? & ?).
  destruct (Qmax4_ge c1 c2 c3 c4) as (? & ? & ? & ?).
  destruct (Qmax4_ge r1 r2 r3 r4) as (? & ? & ? & ?).
  assert (Hc : Qmin4 c1 c2 c3 c4 <= Qmax4 c1 c2 c3 c4) by (eapply Qle_trans; eassumption).
  assert (Hr : Qmin4 r1 r2 r3 r4 <= Qmax4 r1 r2 r3 r4) by (eapply Qle_trans; eassumption).
  pose proof (Qmax_extent _ _ Hc) as Ec. pose proof (Qmax_extent _ _ Hr) as Er.
  unfold covers, within; cbn [col_off row_off width height].
  rewrite Ec, Er.
  repeat (split; [tauto|]).
  intros w' (? & ? & ? & ?) (? & ? & ? & ?) (? & ? & ? & ?) (? & ? & ? & ?).
  rewrite Ec, Er.
  repeat split.
  - now apply Qmin4_glb.
  - now apply Qmax4_lub.
  - now apply Qmin4_glb.
  - now apply Qmax4_lub.
Qed.

(** * The claims *)

(** ** Catalog search (C5, C6) *)

(** C5. Whatever the bounding box, the date range and the primary
    threshold, a scene returned by [_search_best_item] carries a cloud
    cover strictly below the threshold in effect, that is the threshold of
    the last catalogue query made: the primary one, or 60 after relaxation.
    A scene at or above that threshold is never returned. *)
Theorem search_cloud_below_threshold_in_effect
    (W : World) (bbox : BBox) (start end_ : json) (cloud_first : Z)
    (calls : list remote_call) (it : Item) :
  _search_best_item W bbox start end_ cloud_first = MkIO calls (Ok (Some it)) →
  ∃ cc T earlier,
    calls = earlier ++ [CatalogSearch bbox (search_dt W start end_) T] ∧
    (T = inject_Z cloud_first ∨ T = 60) ∧
    properties it !! cloud_key = Some cc ∧
    cc < T ∧ ¬ (T <= cc).
Proof.
  rewrite search_best_item_spec. cbv zeta.
  destruct (head (sort_by_key (catalog_search W bbox _ (inject_Z cloud_first))))
    as [it1|] eqn:E1.
  - intros H. injection H as Hc Hi. subst calls it1.
    assert (Hin : In it (catalog_search W bbox (search_dt W start end_)
                           (inject_Z cloud_first))).
    { now apply head_sort_by_key_in. }
    apply in_catalog_search in Hin as (cc & Hcc & Hlt).
    exists cc, (inject_Z cloud_first), []. repeat split; auto.
    now apply Qlt_not_le.
  - intros H. injection H as Hc E2. subst calls.
    assert (Hin : In it (catalog_search W bbox (search_dt W start end_) 60)).
    { now apply head_sort_by_key_in. }
    apply in_catalog_search in Hin as (cc & Hcc & Hlt).
    exists cc, 60, [CatalogSearch bbox (search_dt W start end_) (inject_Z cloud_first)].
    repeat split; auto.
    now apply Qlt_not_le.
Qed.

Lemma search_cloud_below_threshold_in_effect_witness :
  ∃ cc T earlier,
    [CatalogSearch ex_bbox "2024-01-01/2024-03-01" 20]
      = earlier ++ [CatalogSearch ex_bbox
                      (search_dt ex_W (JStr "2024-01-01") (JStr "2024-03-01")) T] ∧
    (T = inject_Z 20 ∨ T = 60) ∧
    properties (ex_item "S2B_c12" (Some 12)) !! cloud_key = Some cc ∧
    cc < T ∧ ¬ (T <= cc).
Proof.
  apply (search_cloud_below_threshold_in_effect
           ex_W ex_bbox (JStr "2024-01-01") (JStr "2024-03-01") 20).
  vm_compute. reflexivity.
Defined.

(** With only cloudy scenes in the catalogue the relaxed tier answers, and
    the scene is below 60 but not below 20. *)
Example search_relaxed_tier_example :
  let W := ex_world ex_cloudy_catalog ex_grid ex_proj ex_b4 ex_b8 in
  _search_best_item W ex_bbox (JStr "2024-01-01") (JStr "2024-03-01") 20
  = MkIO [CatalogSearch ex_bbox "2024-01-01/2024-03-01" 20;
          CatalogSearch ex_bbox "2024-01-01/2024-03-01" 60]
         (Ok (Some (ex_item "S2B_c30" (Some 30)))).
Proof. vm_compute. reflexivity. Qed.

(** C6. Either the primary query is empty and the relaxed query (threshold
    60) is made after it, or the primary query has scenes and then it is
    the only query: the answer is one of its scenes, the least cloudy one,
    and no relaxed-tier scene can take its place. *)
Theorem search_relaxes_only_when_primary_empty
    (W : World) (bbox : BBox) (start end_ : json) (cloud_first : Z) :
  let dt := search_dt W start end_ in
  let primary := catalog_search W bbox dt (inject_Z cloud_first) in
  let r := _search_best_item W bbox start end_ cloud_first in
  (primary = [] ∧
   r = MkIO [CatalogSearch bbox dt (inject_Z cloud_first); CatalogSearch bbox dt 60]
            (Ok (head (sort_by_key (catalog_search W bbox dt 60)))))
  ∨
  (∃ it, In it primary ∧
         (∀ u, In u primary → sort_key it <= sort_key u) ∧
         r = MkIO [CatalogSearch bbox dt (inject_Z cloud_first)] (Ok (Some it))).
Proof.
  intros dt primary r. unfold r. rewrite search_best_item_spec. cbv zeta.
  fold dt. fold primary.
  destruct (head (sort_by_key primary)) as [it|] eqn:E.
  - right. exists it. split; [|split; [|reflexivity]].
    + now apply head_sort_by_key_in.
    + now apply head_sort_by_key_least.
  - left. split; [|reflexivity]. now apply pick_none_iff in E.
Qed.

(** ** The transform of the window (C2) *)

Lemma f64_mul_comm (x y : f64) : f64_mul x y = f64_mul y x.
Proof.
  unfold f64_mul, SFmul.
  destruct x as [sx|sx| |sx mx ex], y as [sy|sy| |sy my ey];
    try reflexivity; rewrite (xorb_comm sx sy); try reflexivity.
  now rewrite (Pos.mul_comm mx my), (Z.add_comm ex ey).
Qed.

Lemma f64_zero_mul_finite (s : bool) (x : f64) :
  finite64 x → ∃ s', f64_mul (S754_zero s) x = S754_zero s'.
Proof. destruct x; cbn; intros H; try destruct H; eauto. Qed.

Lemma f64_zero_add (s : bool) (x : f64) : same_float (f64_add (S754_zero s) x) x.
Proof.
  destruct x as [sx|sx| |sx mx ex]; cbn.
  - right. destruct s, sx; do 2 eexists; split; reflexivity.
  - now left.
  - now left.
  - now left.
Qed.

Lemma f64_eqb_refl (x : f64) : finite64 x → f64_eqb x x = true.
Proof.
  destruct x as [s|s| |s m e]; cbn [finite64]; try tauto; intros _.
  unfold f64_eqb, SFeqb, SFcompare.
  destruct s; rewrite Z.compare_refl, Pos.compare_cont_refl; reflexivity.
Qed.

Lemma same_float_eqb (x y : f64) : same_float x y → finite64 y → f64_eqb x y = true.
Proof.
  intros [->|(s & s' & -> & ->)] Hy.
  - now apply f64_eqb_refl.
  - reflexivity.
Qed.

(** Lines 132-134 on any source transform and any offsets, in binary64 as
    Python evaluates them: when the linear coefficients of the composed
    transform are finite, the composed transform applied to pixel (0, 0)
    is the source transform applied to (col_off, row_off), with no
    rounding difference at all (at most the sign of a zero). *)
Lemma float_window_origin_exact (src : Affine64) (c_off r_off : f64) :
  let t := mul64 src (translation64 c_off r_off) in
  finite64 (fa t) → finite64 (fb t) → finite64 (fd t) → finite64 (fe t) →
  same_float (fst (apply64 t (f64_zero, f64_zero))) (fst (apply64 src (c_off, r_off))) ∧
  same_float (snd (apply64 t (f64_zero, f64_zero))) (snd (apply64 src (c_off, r_off))).
Proof.
  destruct src as [sa sb sc sd se sf]. cbv zeta.
  unfold mul64, translation64, apply64; cbn [fa fb fc fd fe ff fst snd].
  intros Ha Hb Hd He.
  rewrite (f64_mul_comm c_off sa), (f64_mul_comm r_off sb),
          (f64_mul_comm c_off sd), (f64_mul_comm r_off se).
  destruct (f64_zero_mul_finite false _ Ha) as [s1 E1].
  destruct (f64_zero_mul_finite false _ Hb) as [s2 E2].
  destruct (f64_zero_mul_finite false _ Hd) as [s3 E3].
  destruct (f64_zero_mul_finite false _ He) as [s4 E4].
  change (S754_zero false) with f64_zero in E1, E2, E3, E4.
  rewrite E1, E2, E3, E4.
  assert (Hz : ∀ p q, ∃ r, f64_add (S754_zero p) (S754_zero q) = S754_zero r).
  { intros p q. destruct p, q; eexists; reflexivity. }
  destruct (Hz s1 s2) as [s12 ->]. destruct (Hz s3 s4) as [s34 ->].
  split; apply f64_zero_add.
Qed.

(** The translation part of the composed transform is, bit for bit, the
    source transform applied to the offsets. *)
Lemma float_window_offset (src : Affine64) (c_off r_off : f64) :
  let t := mul64 src (translation64 c_off r_off) in
  (fc t, ff t) = apply64 src (c_off, r_off).
Proof.
  destruct src as [sa sb sc sd se sf]. cbv zeta.
  unfold mul64, translation64, apply64; cbn [fc ff].
  now rewrite (f64_mul_comm c_off sa), (f64_mul_comm r_off sb),
              (f64_mul_comm c_off sd), (f64_mul_comm r_off se).
Qed.

Example float_window_origin_example :
  let f (z : Z) : f64 := binary_normalize 53 1024 z 0 false in
  let src := MkAffine64 (f 10%Z) (f 0%Z) (f 400000%Z) (f 0%Z) (f (-10)%Z)
               (f 1000000%Z) in
  let t := mul64 src (translation64 (f 7000%Z) (f 9999%Z)) in
  finite64 (fa t) ∧ finite64 (fb t) ∧ finite64 (fd t) ∧ finite64 (fe t) ∧
  apply64 t (f64_zero, f64_zero) = apply64 src (f 7000%Z, f 9999%Z) ∧
  apply64 t (f64_zero, f64_zero) = (f 470000%Z, f 900010%Z).
Proof. vm_compute. repeat split. Qed.

(** Away from the origin the two sides are different roundings of the
    same number and need not be equal: with pixels of 0.1 and offsets
    (1, 1), pixel (5, 0) goes to 0.5 + 0.1 through the composed transform
    and to 6 * 0.1 through the source. *)
Example float_window_pixel_rounding :
  let tenth := f64_of_Q (1 # 10) in
  let src := MkAffine64 tenth f64_zero f64_zero f64_zero (SFopp tenth) f64_zero in
  let t := mul64 src (translation64 f64_one f64_one) in
  finite_affine t ∧
  f64_eqb (fst (apply64 t (f64_zero, f64_zero))) (fst (apply64 src (f64_one, f64_one)))
  = true ∧
  fst (apply64 t (f64_of_Z 5, f64_zero)) = f64_of_Q (6 # 10) ∧
  f64_eqb (fst (apply64 t (f64_of_Z 5, f64_zero)))
          (fst (apply64 src (f64_of_Z 6, f64_one))) = false.
Proof. vm_compute. repeat split. Qed.

(** C2. When [_read_bands_ndvi] returns, the transform it returns is the
    product, as [Affine.__mul__] computes it in binary64, of the source
    transform of the red band and [Affine.translation(col_off, row_off)]
    for the offsets of the window that was read.  Its translation part is,
    bit for bit, the source transform applied to (col_off, row_off); and
    whenever its coefficients are finite, the returned transform applied
    to pixel (0, 0) equals the source transform applied to
    (col_off, row_off) under Python's [==], with no rounding difference
    (the two floats are the same, up to the sign of a zero). *)
Theorem window_transform_is_translated_source
    (W : World) (item : Item) (west south east north : Q) (out_res : option Q)
    (calls : list remote_call) (nd : ndarray f32) (t : Affine64) (wkt : string) :
  _read_bands_ndvi W item (west, south, east, north) out_res
  = MkIO calls (Ok (nd, t, wkt)) →
  ∃ h4 src_crs src w,
    assets item !! "B04" = Some h4 ∧
    raster_open W h4 = Ok (src_crs, src) ∧
    In (RasterRead h4 w) calls ∧
    let src64 := affine64_of src in
    let c_off := f64_of_Q (col_off w) in
    let r_off := f64_of_Q (row_off w) in
    t = mul64 src64 (translation64 c_off r_off) ∧
    (fc t, ff t) = apply64 src64 (c_off, r_off) ∧
    (finite_affine t →
     same_float (fst (apply64 t (f64_zero, f64_zero))) (fst (apply64 src64 (c_off, r_off))) ∧
     same_float (snd (apply64 t (f64_zero, f64_zero))) (snd (apply64 src64 (c_off, r_off))) ∧
     f64_eqb (fst (apply64 t (f64_zero, f64_zero))) (fst (apply64 src64 (c_off, r_off)))
     = true ∧
     f64_eqb (snd (apply64 t (f64_zero, f64_zero))) (snd (apply64 src64 (c_off, r_off)))
     = true).
Proof.
  intros H. apply read_bands_ndvi_ok in H
    as (h4 & h8 & src_crs & src & w & b4 & b8 & E4 & E8 & Eo & _ & _ & _ & _
        & -> & _ & -> & _).
  exists h4, src_crs, src, w. cbv zeta.
  split; [assumption|]. split; [assumption|]. split; [cbn; tauto|].
  split; [reflexivity|].
  pose proof (float_window_offset (affine64_of src) (f64_of_Q (col_off w))
                (f64_of_Q (row_off w))) as Hoff. cbv zeta in Hoff.
  split; [exact Hoff|].
  intros (Ha & Hb & Hc & Hd & He & Hf).
  destruct (float_window_origin_exact (affine64_of src) (f64_of_Q (col_off w))
              (f64_of_Q (row_off w)) Ha Hb Hd He) as [Hx Hy].
  rewrite <- Hoff in *. cbn [fst snd] in *.
  repeat split; try assumption; now apply same_float_eqb.
Qed.

Lemma window_transform_is_translated_source_witness :
  ∃ calls nd t wkt,
    _read_bands_ndvi ex_W (ex_item "S2B_c12" (Some 12)) ex_bbox None
    = MkIO calls (Ok (nd, t, wkt)) ∧
    finite_affine t ∧
    apply64 t (f64_zero, f64_zero) = (f64_of_Z 470000, f64_of_Z 900010) ∧
    ∃ h4 src_crs src w,
      assets (ex_item "S2B_c12" (Some 12)) !! "B04" = Some h4 ∧
      raster_open ex_W h4 = Ok (src_crs, src) ∧
      In (RasterRead h4 w) calls ∧
      let src64 := affine64_of src in
      let c_off := f64_of_Q (col_off w) in
      let r_off := f64_of_Q (row_off w) in
      t = mul64 src64 (translation64 c_off r_off) ∧
      (fc t, ff t) = apply64 src64 (c_off, r_off) ∧
      (finite_affine t →
       same_float (fst (apply64 t (f64_zero, f64_zero)))
                  (fst (apply64 src64 (c_off, r_off))) ∧
       same_float (snd (apply64 t (f64_zero, f64_zero)))
                  (snd (apply64 src64 (c_off, r_off))) ∧
       f64_eqb (fst (apply64 t (f64_zero, f64_zero))) (fst (apply64 src64 (c_off, r_off)))
       = true ∧
       f64_eqb (snd (apply64 t (f64_zero, f64_zero))) (snd (apply64 src64 (c_off, r_off)))
       = true).
Proof.
  eexists _, _, _, _. split; [vm_compute; reflexivity|].
  split; [vm_compute; tauto|]. split; [vm_compute; reflexivity|].
  eapply (window_transform_is_translated_source
            ex_W (ex_item "S2B_c12" (Some 12))
            (387 # 10) 9 (387003 # 10000) (90001 # 10000) None).
  vm_compute. reflexivity.
Defined.

(** ** The window that is read (C4) *)

(** C4, as the code has it.  When [_read_bands_ndvi] returns it has
    reprojected two corners of the box, (west, south) and (east, north),
    into the CRS of the red band; the window is the one [from_bounds] gives
    for the native rectangle spanned by these two points: it covers the
    pixel positions of the four corners of that rectangle, the two
    reprojected points among them, and lies inside every window that does;
    and this one window is read from the red and from the near-infrared
    asset, in that order. *)
Theorem read_bands_window_spans_two_reprojected_corners
    (W : World) (item : Item) (west south east north : Q) (out_res : option Q)
    (calls : list remote_call) (nd : ndarray f32) (t : Affine64) (wkt : string) :
  _read_bands_ndvi W item (west, south, east, north) out_res
  = MkIO calls (Ok (nd, t, wkt)) →
  ∃ h4 h8 src_crs src w,
    assets item !! "B04" = Some h4 ∧ assets item !! "B08" = Some h8 ∧
    raster_open W h4 = Ok (src_crs, src) ∧
    let sw := transformer W src_crs (west, south) in
    let ne := transformer W src_crs (east, north) in
    from_bounds (fst sw) (snd sw) (fst ne) (snd ne) src = Ok w ∧
    calls = [RasterOpen h4; RasterRead h4 w; RasterOpen h8; RasterRead h8 w] ∧
    ∃ rc_nw rc_ne rc_se rc_sw,
      rowcol src (fst sw, snd ne) = Ok rc_nw ∧ rowcol src (fst ne, snd ne) = Ok rc_ne ∧
      rowcol src (fst ne, snd sw) = Ok rc_se ∧ rowcol src (fst sw, snd sw) = Ok rc_sw ∧
      covers w rc_nw ∧ covers w rc_ne ∧ covers w rc_se ∧ covers w rc_sw ∧
      ∀ w', covers w' rc_nw → covers w' rc_ne → covers w' rc_se → covers w' rc_sw →
            within w w'.
Proof.
  intros H. apply read_bands_ndvi_ok in H
    as (h4 & h8 & src_crs & src & w & b4 & b8 & E4 & E8 & Eo & _ & Ew & _ & _
        & -> & _ & _ & _).
  exists h4, h8, src_crs, src, w. cbv zeta.
  repeat (split; [assumption || reflexivity|]).
  now apply from_bounds_minimal_cover.
Qed.

Lemma read_bands_window_spans_two_reprojected_corners_witness :
  ∃ calls nd t wkt,
    _read_bands_ndvi ex_W_rot (ex_item "S2B_c12" (Some 12)) ex_unit_bbox None
    = MkIO calls (Ok (nd, t, wkt)) ∧
    ∃ h4 h8 src_crs src w,
      assets (ex_item "S2B_c12" (Some 12)) !! "B04" = Some h4 ∧
      assets (ex_item "S2B_c12" (Some 12)) !! "B08" = Some h8 ∧
      raster_open ex_W_rot h4 = Ok (src_crs, src) ∧
      let sw := transformer ex_W_rot src_crs (0, 0) in
      let ne := transformer ex_W_rot src_crs (1, 1) in
      from_bounds (fst sw) (snd sw) (fst ne) (snd ne) src = Ok w ∧
      calls = [RasterOpen h4; RasterRead h4 w; RasterOpen h8; RasterRead h8 w] ∧
      ∃ rc_nw rc_ne rc_se rc_sw,
        rowcol src (fst sw, snd ne) = Ok rc_nw ∧ rowcol src (fst ne, snd ne) = Ok rc_ne ∧
        rowcol src (fst ne, snd sw) = Ok rc_se ∧ rowcol src (fst sw, snd sw) = Ok rc_sw ∧
        covers w rc_nw ∧ covers w rc_ne ∧ covers w rc_se ∧ covers w rc_sw ∧
        ∀ w', covers w' rc_nw → covers w' rc_ne → covers w' rc_se → covers w' rc_sw →
              within w w'.
Proof.
  eexists _, _, _, _. split.
  - vm_compute. reflexivity.
  - eapply (read_bands_window_spans_two_reprojected_corners
              ex_W_rot (ex_item "S2B_c12" (Some 12)) 0 0 1 1 None).
    vm_compute. reflexivity.
Defined.

(** C4, as stated, fails: under a projection that rotates the box, the
    window computed from the south-west and north-east corners is columns
    0 to 90, while the reprojected north-west corner falls in column -10. *)
Lemma window_misses_reprojected_north_west_corner :
  ¬ window_covers_reprojected_box ex_W_rot (ex_item "S2B_c12" (Some 12)) ex_unit_bbox.
Proof.
  intros H.
  destruct (_read_bands_ndvi ex_W_rot (ex_item "S2B_c12" (Some 12)) ex_unit_bbox None)
    as [calls [res|e]] eqn:E; pose proof E as E0; vm_compute in E0;
    [|discriminate E0].
  injection E0 as <- <-.
  destruct (H None _ _ "S2B_c12/B04.tif"%string (MkWindow 0 90 90 110)
              "EPSG:32637"%string ex_unit_grid E) with (corner := (0, 1))
    as (rc & Hrc & Hcov).
  - vm_compute. reflexivity.
  - right. left. reflexivity.
  - reflexivity.
  - do 3 right. left. reflexivity.
  - vm_compute in Hrc. injection Hrc as <-.
    destruct Hcov as (Hc & _). vm_compute in Hc. exact (Hc eq_refl).
Qed.

(** ** Band windows of different shapes (C7) *)

Lemma broadcast_dim_sym n m : broadcast_dim n m = broadcast_dim m n.
Proof.
  unfold broadcast_dim.
  destruct (Nat.eqb_spec n m), (Nat.eqb_spec m n), (Nat.eqb_spec n 1),
    (Nat.eqb_spec m 1); subst; try reflexivity; try lia; congruence.
Qed.

(** The index computation has no shape check of its own: it answers with
    the broadcast shape, or fails in numpy's first elementwise operation. *)
Lemma ndvi_of_bands_shape (b4 b8 : masked_array f32) :
  match broadcast_dim (nd_rows b4) (nd_rows b8),
        broadcast_dim (nd_cols b4) (nd_cols b8) with
  | Some h, Some w => ∃ out, ndvi_of_bands b4 b8 = Ok out ∧ nd_shape out = (h, w)
  | _, _ => ndvi_of_bands b4 b8 = Raise ValueError
  end.
Proof.
  unfold ndvi_of_bands.
  set (s4 := ma_itruediv_scalar b4 reflectance_scale).
  set (s8 := ma_itruediv_scalar b8 reflectance_scale).
  change (nd_rows b4) with (nd_rows s4). change (nd_cols b4) with (nd_cols s4).
  change (nd_rows b8) with (nd_rows s8). change (nd_cols b8) with (nd_cols s8).
  rewrite (broadcast_dim_sym (nd_rows s4)), (broadcast_dim_sym (nd_cols s4)).
  pose proof (nd_broadcast2_shape mcell_d mcell_d (ma_binop_cell f32_add) s8 s4) as Hd.
  pose proof (nd_broadcast2_shape mcell_d mcell_d (ma_binop_cell f32_sub) s8 s4) as Hf.
  unfold ma_add, ma_sub.
  destruct (broadcast_dim (nd_rows s8) (nd_rows s4)) as [h|];
    [destruct (broadcast_dim (nd_cols s8) (nd_cols s4)) as [w|]|].
  - destruct Hd as (denom & -> & Wd & Sd). destruct Hf as (diff & -> & Wf & Sf).
    result_bind.
    assert (Hfd : nd_shape diff = nd_shape denom) by congruence.
    destruct (nd_broadcast2_same mcell_d mcell_d ma_truediv_cell diff denom Hfd)
      as (quot & Eq & Wq & Sq & _).
    unfold ma_truediv. rewrite Eq.
    assert (Hcq : nd_shape (ma_eq_scalar denom f32_zero) = nd_shape quot)
      by (unfold nd_shape in *; cbn; congruence).
    destruct (nd_broadcast2_same bcell_d mcell_d
                (λ c v, if cdata c then nan else cdata v) _ quot Hcq)
      as (out & Eo & Wo & So & _).
    unfold np_where_scalar. rewrite Eo. exists out. split; [reflexivity|].
    rewrite So. unfold nd_shape in *; cbn; congruence.
  - rewrite Hd. reflexivity.
  - rewrite Hd. reflexivity.
Qed.

(** C7, as the code has it.  When both band windows have been read, the
    reader performs no shape check: if the two shapes are compatible under
    numpy's broadcasting (each axis equal, or of length 1 in one of them)
    the index is computed on the broadcast arrays and a grid of the
    broadcast shape is returned; otherwise the elementwise addition raises
    numpy's [ValueError]. *)
Theorem read_bands_broadcasts_mismatched_shapes
    (W : World) (item : Item) (bbox : BBox) (out_res : option Q)
    (h4 h8 : string) (w : Window) (b4 b8 : masked_array Z) :
  io_calls (_read_bands_ndvi W item bbox out_res)
  = [RasterOpen h4; RasterRead h4 w; RasterOpen h8; RasterRead h8 w] →
  raster_read W h4 w = Ok b4 → raster_read W h8 w = Ok b8 →
  match broadcast_dim (nd_rows b4) (nd_rows b8),
        broadcast_dim (nd_cols b4) (nd_cols b8) with
  | Some rows, Some cols =>
      ∃ nd t wkt, io_result (_read_bands_ndvi W item bbox out_res) = Ok (nd, t, wkt) ∧
                  nd_shape nd = (rows, cols)
  | _, _ => io_result (_read_bands_ndvi W item bbox out_res) = Raise ValueError
  end.
Proof.
  destruct bbox as [[[west south] east] north].
  rewrite read_bands_ndvi_unfold.
  destruct (asset_href item "B04") as [h4'|]; [|discriminate].
  destruct (asset_href item "B08") as [h8'|]; [|discriminate].
  destruct (raster_open W h4') as [[src_crs src]|]; [|discriminate].
  cbv zeta.
  destruct (scale_factors out_res src); [|discriminate].
  destruct (from_bounds _ _ _ _ src) as [w'|]; [|discriminate].
  destruct (raster_read W h4' w') as [b4'|] eqn:R4; [|discriminate].
  destruct (raster_open W h8'); [|discriminate].
  destruct (raster_read W h8' w') as [b8'|] eqn:R8;
    cbn [io_calls io_result]; intros Hc E4 E8.
  - assert (b4' = b4) as -> by congruence.
    assert (b8' = b8) as -> by congruence.
    pose proof (ndvi_of_bands_shape (ma_astype_f32 b4) (ma_astype_f32 b8)) as Hs.
    change (nd_rows (ma_astype_f32 b4)) with (nd_rows b4) in Hs.
    change (nd_cols (ma_astype_f32 b4)) with (nd_cols b4) in Hs.
    change (nd_rows (ma_astype_f32 b8)) with (nd_rows b8) in Hs.
    change (nd_cols (ma_astype_f32 b8)) with (nd_cols b8) in Hs.
    destruct (broadcast_dim (nd_rows b4) (nd_rows b8)) as [rows|];
      [destruct (broadcast_dim (nd_cols b4) (nd_cols b8)) as [cols|]|].
    + destruct Hs as (out & -> & Hshape). result_bind. eauto.
    + rewrite Hs. reflexivity.
    + rewrite Hs. reflexivity.
  - congruence.
Qed.

Lemma read_bands_broadcasts_mismatched_shapes_witness :
  ∃ nd t wkt,
    io_result (_read_bands_ndvi ex_W_mismatch (ex_item "S2B_c12" (Some 12)) ex_bbox None)
    = Ok (nd, t, wkt) ∧ nd_shape nd = (2%nat, 2%nat).
Proof.
  eapply (read_bands_broadcasts_mismatched_shapes
            ex_W_mismatch (ex_item "S2B_c12" (Some 12)) ex_bbox None
            _ _ _ ex_b4_row ex_b8_square).
  - vm_compute. reflexivity.
  - reflexivity.
  - reflexivity.
Defined.

(** C7, as stated, fails: a 1 x 2 red window and a 2 x 2 near-infrared
    window are broadcast without any error, and a 2 x 2 grid is returned. *)
Lemma mismatched_shapes_are_broadcast_silently :
  ¬ shape_mismatch_fails ex_W_mismatch (ex_item "S2B_c12" (Some 12)) ex_bbox.
Proof.
  intros H.
  assert (∃ e, io_result (_read_bands_ndvi ex_W_mismatch
                            (ex_item "S2B_c12" (Some 12)) ex_bbox None) = Raise e)
    as [e He].
  { eapply H.
    - vm_compute. reflexivity.
    - vm_compute. reflexivity.
    - vm_compute. reflexivity.
    - vm_compute. intros [=]. }
  vm_compute in He. discriminate He.
Qed.

(** ** The unused output resolution (C9) *)

Lemma Qeq_bool_Qabs_zero (x : Q) : Qeq_bool (Qabs x) 0 = true → Qeq_bool x 0 = true.
Proof.
  intros H. apply Qeq_bool_iff in H. apply Qeq_bool_iff.
  revert H. apply Qabs_case; intros; lra.
Qed.

(** The scale factors either go through or divide by a zero coefficient. *)
Lemma scale_factors_cases (out_res : option Q) (src : Affine) :
  scale_factors out_res src = Ok () ∨
  (scale_factors out_res src = Raise ZeroDivisionError ∧
   (Qeq_bool (aff_a src) 0 = true ∨ Qeq_bool (aff_e src) 0 = true)).
Proof.
  unfold scale_factors, py_div. destruct out_res as [r|]; [|now left].
  destruct (Qeq_bool r 0); cbn [negb]; [now left|]. result_bind.
  destruct (Qeq_bool (aff_a src) 0) eqn:Ea; [right; auto|].
  destruct (Qeq_bool (Qabs (aff_e src)) 0) eqn:Ee; [|now left].
  right. split; [reflexivity|]. right. now apply Qeq_bool_Qabs_zero.
Qed.

(** [from_bounds] fails on a transform with a zero [a] or [e]. *)
Lemma from_bounds_degenerate (left bottom right top : Q) (src : Affine) :
  Qeq_bool (aff_a src) 0 = true ∨ Qeq_bool (aff_e src) 0 = true →
  ∃ e, from_bounds left bottom right top src = Raise e.
Proof.
  unfold from_bounds, py_div. result_bind. intros [Ha|He].
  - rewrite Ha. eauto.
  - destruct (Qeq_bool (aff_a src) 0); [eauto|].
    destruct (Qlt_bool _ 0); [eauto|]. rewrite He. eauto.
Qed.

(** C9. For every scene, box and [out_res], [_read_bands_ndvi] makes the
    same remote calls (the same window is read from both assets) as with
    [out_res=None], and returns a triple (NDVI array, transform, CRS)
    exactly when the call with [None] does, the same triple; one call
    fails exactly when the other does. *)
Theorem read_bands_out_res_is_dead
    (W : World) (item : Item) (bbox : BBox) (out_res : option Q) :
  let r := _read_bands_ndvi W item bbox out_res in
  let r0 := _read_bands_ndvi W item bbox None in
  io_calls r = io_calls r0 ∧
  (∀ v, io_result r = Ok v ↔ io_result r0 = Ok v) ∧
  is_ok (io_result r) = is_ok (io_result r0).
Proof.
  destruct bbox as [[[west south] east] north]. cbv zeta.
  rewrite !read_bands_ndvi_unfold.
  destruct (asset_href item "B04") as [h4|]; [|tauto].
  destruct (asset_href item "B08") as [h8|]; [|tauto].
  destruct (raster_open W h4) as [[src_crs src]|]; [|tauto].
  cbv zeta. change (scale_factors None src) with (Ok () : result unit).
  destruct (scale_factors_cases out_res src) as [->|[-> Hz]]; [tauto|].
  destruct (from_bounds_degenerate
              (fst (transformer W src_crs (west, south)))
              (snd (transformer W src_crs (west, south)))
              (fst (transformer W src_crs (east, north)))
              (snd (transformer W src_crs (east, north))) src Hz) as [e ->].
  cbn [io_calls io_result is_ok].
  repeat split; intros; discriminate.
Qed.

(** On a grid with non-zero [a] and [e], which every north-up raster has,
    the two calls agree on everything, the exception included. *)
Lemma read_bands_out_res_ignored_on_regular_grids
    (W : World) (item : Item) (bbox : BBox) (out_res : option Q) :
  (∀ h crs src, raster_open W h = Ok (crs, src) →
                ¬ aff_a src == 0 ∧ ¬ aff_e src == 0) →
  _read_bands_ndvi W item bbox out_res = _read_bands_ndvi W item bbox None.
Proof.
  intros Hreg. destruct bbox as [[[west south] east] north].
  rewrite !read_bands_ndvi_unfold.
  destruct (asset_href item "B04") as [h4|]; [|reflexivity].
  destruct (asset_href item "B08") as [h8|]; [|reflexivity].
  destruct (raster_open W h4) as [[src_crs src]|] eqn:Eo; [|reflexivity].
  cbv zeta. change (scale_factors None src) with (Ok () : result unit).
  destruct (scale_factors_cases out_res src) as [->|[_ Hz]]; [reflexivity|].
  destruct (Hreg _ _ _ Eo) as [Ha He].
  destruct Hz as [Hz|Hz]; apply Qeq_bool_iff in Hz; contradiction.
Qed.

(** On a sheared grid with [e = 0] both calls fail before any window is
    read; only the exception differs. *)
Example read_bands_out_res_on_sheared_grid :
  _read_bands_ndvi ex_W_sheared (ex_item "S2B_c12" (Some 12)) ex_unit_bbox None
  = MkIO [RasterOpen "S2B_c12/B04.tif"] (Raise WindowError) ∧
  _read_bands_ndvi ex_W_sheared (ex_item "S2B_c12" (Some 12)) ex_unit_bbox (Some 10)
  = MkIO [RasterOpen "S2B_c12/B04.tif"] (Raise ZeroDivisionError).
Proof. split; vm_compute; reflexivity. Qed.

(** ** The two routes (C10, C3) *)

Section Routes.

Variable W : World.

Ltac route_step r :=
  destruct r; cbn [io_calls io_result app]; [|reflexivity].

Ltac coord_step key :=
  match goal with
  | |- context [result_bind ?A ?B ?f (py_getitem ?b key)] =>
      route_step (result_bind A B f (py_getitem b key))
  end.

Ltac route_prefix body :=
  io_unfold;
  route_step (py_get body "bbox");
  route_step (py_get body "startDate");
  route_step (py_get body "endDate");
  match goal with |- context [if ?c then _ else _] => destruct c end;
  cbn [io_calls io_result app]; [reflexivity|];
  coord_step "west"%string; coord_step "south"%string;
  coord_step "east"%string; coord_step "north"%string;
  match goal with
  | |- context [_search_best_item W ?aoi ?s ?e 20] =>
      destruct (_search_best_item W aoi s e 20) as [? [[item|]|?]];
      cbn [io_calls io_result app]; try reflexivity;
      destruct (_read_bands_ndvi W item aoi None) as [? [[[? ?] ?]|?]];
      cbn [io_calls io_result app]; try reflexivity
  end.

Lemma ndvi_factors body :
  ndvi W body = p ← request_pipeline W body; lift (png_response W p).
Proof.
  unfold ndvi, request_pipeline, png_response. route_prefix body.
  result_bind. destruct (_png_from_ndvi W _); now rewrite !app_nil_r.
Qed.

Lemma ndvi_download_factors body :
  ndvi_download W body = p ← request_pipeline W body; lift (tiff_response W p).
Proof.
  unfold ndvi_download, request_pipeline, tiff_response. route_prefix body.
  result_bind. destruct (_save_geotiff W _ _ _); now rewrite !app_nil_r.
Qed.

End Routes.


Example ndvi_routes_on_example_request :
  ∃ calls nd t wkt png_bytes gtiff,
    _read_bands_ndvi ex_W (ex_item "S2B_c12" (Some 12)) ex_bbox None
      = MkIO calls (Ok (nd, t, wkt)) ∧
    _png_from_ndvi ex_W nd = Ok png_bytes ∧
    _save_geotiff ex_W nd t wkt = Ok gtiff ∧
    io_result (ndvi ex_W (ex_body true))
      = Ok (MkResponse 200 "image/png" [] png_bytes) ∧
    io_result (ndvi_download ex_W (ex_body true))
      = Ok (MkResponse 200 "image/tiff"
              (download_headers ex_W (JStr "2024-01-01") (JStr "2024-03-01"))
              gtiff).
Proof.
  eexists _, _, _, _, _, _. split; [vm_compute; reflexivity|].
  split; [vm_compute; reflexivity|]. split; [vm_compute; reflexivity|].
  split; vm_compute; reflexivity.
Qed.

(** The serializers are the only place where the two routes can part: a
    box with west = east gives a window and an index without columns,
    which the PNG renderer takes and the GTiff writer refuses.  The same
    calls are made, and [/ndvi] answers 200 where [/ndvi/download]
    answers 500. *)
Example ndvi_routes_part_at_the_serializer :
  io_calls (ndvi ex_W_empty_window ex_body_empty_box)
  = io_calls (ndvi_download ex_W_empty_window ex_body_empty_box) ∧
  http_status (io_result (ndvi ex_W_empty_window ex_body_empty_box)) = 200%Z ∧
  io_result (ndvi_download ex_W_empty_window ex_body_empty_box) = Raise RasterioIOError ∧
  http_status (io_result (ndvi_download ex_W_empty_window ex_body_empty_box)) = 500%Z.
Proof.
  pose proof (ndvi_factors ex_W_empty_window ex_body_empty_box) as E1.
  pose proof (ndvi_download_factors ex_W_empty_window ex_body_empty_box) as E2.
  assert (Ep : request_pipeline ex_W_empty_window ex_body_empty_box
               = MkIO (io_calls (request_pipeline ex_W_empty_window ex_body_empty_box))
                      (Ok (JStr "2024-01-01", JStr "2024-03-01",
                           ex_item "S2B_c12" (Some 12),
                           (NdArray 1 0 [],
                            mul64 (affine64_of ex_grid)
                                  (translation64 (f64_of_Z 7000) (f64_of_Z 9999)),
                            "EPSG:32637"%string)))).
  { vm_compute. reflexivity. }
  rewrite Ep in E1, E2. rewrite E1, E2. io_unfold.
  cbn [io_calls io_result]. rewrite !app_nil_r.
  split; [reflexivity|]. split; vm_compute; [reflexivity|split; reflexivity].
Qed.

(** A request whose [bbox] lacks one of its four keys never reaches the
    catalogue or a raster: the common part fails before any remote call. *)
Lemma request_pipeline_missing_key (W : World) (body : json)
    (m : gmap string json) (key : string) :
  py_get body "bbox" = Ok (JObj m) → In key bbox_keys → m !! key = None →
  io_calls (request_pipeline W body) = [] ∧
  ∃ e, io_result (request_pipeline W body) = Raise e.
Proof.
  intros Hb Hk Hn. unfold request_pipeline. io_unfold. rewrite Hb.
  cbn [io_calls io_result app].
  destruct (py_get body "startDate"); cbn [io_calls io_result app]; [|eauto].
  destruct (py_get body "endDate"); cbn [io_calls io_result app]; [|eauto].
  match goal with |- context [if ?c then _ else _] => destruct c end;
    cbn [io_calls io_result app]; [eauto|].
  unfold py_getitem, result_bind, rbind.
  destruct (m !! "west") as [vw|] eqn:Ew; [|cbn; eauto].
  destruct (py_float _ vw); cbn [io_calls io_result app]; [|eauto].
  destruct (m !! "south") as [vs|] eqn:Es; [|cbn; eauto].
  destruct (py_float _ vs); cbn [io_calls io_result app]; [|eauto].
  destruct (m !! "east") as [ve|] eqn:Ee; [|cbn; eauto].
  destruct (py_float _ ve); cbn [io_calls io_result app]; [|eauto].
  destruct (m !! "north") as [vn|] eqn:En; [|cbn; eauto].
  exfalso. unfold bbox_keys in Hk. cbn in Hk.
  destruct Hk as [<-|[<-|[<-|[<-|[]]]]]; congruence.
Qed.

Lemma routes_missing_key_no_remote_call (W : World) (body : json)
    (m : gmap string json) (key : string) :
  py_get body "bbox" = Ok (JObj m) → In key bbox_keys → m !! key = None →
  io_calls (ndvi W body) = [] ∧ io_calls (ndvi_download W body) = [] ∧
  ∃ e, io_result (ndvi W body) = Raise e ∧ io_result (ndvi_download W body) = Raise e.
Proof.
  intros Hb Hk Hn.
  destruct (request_pipeline_missing_key W body m key Hb Hk Hn) as (Hc & e & He).
  rewrite ndvi_factors, ndvi_download_factors. io_unfold.
  rewrite He, Hc. cbn [io_calls io_result]. eauto.
Qed.

(** C3: the failing request.  With a [bbox] that has [west], [south] and
    [east] but no [north], and both dates present, each route raises
    [KeyError] at [bbox["north"]] before any remote call; FastAPI answers
    500, not 400.  The gate of [app.py] answers 400 to the same body. *)
Theorem ndvi_routes_missing_north_is_keyerror (W : World) :
  ndvi W (ex_body false) = MkIO [] (Raise (KeyError "north")) ∧
  ndvi_download W (ex_body false) = MkIO [] (Raise (KeyError "north")) ∧
  http_status (io_result (ndvi W (ex_body false))) = 500%Z ∧
  http_status (io_result (ndvi_download W (ex_body false))) = 500%Z ∧
  app_bbox_gate (ex_body false) = Some 400%Z.
Proof.
  assert (E1 : ndvi W (ex_body false) = MkIO [] (Raise (KeyError "north")))
    by (vm_compute; reflexivity).
  assert (E2 : ndvi_download W (ex_body false) = MkIO [] (Raise (KeyError "north")))
    by (vm_compute; reflexivity).
  rewrite E1, E2. repeat split.
Qed.

Lemma missing_north_is_not_400 (W : World) : ¬ missing_key_is_400 W (ex_body false).
Proof.
  intros H.
  assert (http_status (io_result (ndvi W (ex_body false))) = 400%Z) as H400.
  { eapply (H _ "north"%string).
    - vm_compute. reflexivity.
    - cbn. tauto.
    - vm_compute. reflexivity. }
  vm_compute in H400. discriminate H400.
Qed.

(** An empty [bbox], or a missing date, is answered with 400. *)
Example ndvi_empty_bbox_is_400 (W : World) :
  ndvi W (JObj (<["bbox" := JObj ∅]> (<["startDate" := JStr "2024-01-01"]>
                  (<["endDate" := JStr "2024-03-01"]> ∅))))
  = MkIO [] (Raise (HTTPException 400 "Missing parameters")).
Proof. vm_compute. reflexivity. Qed.

(** ** No-data in the index and in the GeoTIFF (C1) *)

(** What [_save_geotiff] hands to the GTiff writer. *)
Lemma save_geotiff_profile (W : World) (nd : ndarray f32) (t : Affine64) (wkt : string) :
  _save_geotiff W nd t wkt = gtiff_write W (geotiff_profile nd t wkt) nd ∧
  let p := geotiff_profile nd t wkt in
  driver p = "GTiff"%string ∧ dtype p = "float32"%string ∧ count p = 1%nat ∧
  compress p = "deflate"%string ∧ nodata p = nan ∧
  crs p = wkt ∧ transform p = t ∧ (p_height p, p_width p) = nd_shape nd.
Proof. repeat split. Qed.

(** Every NaN sample is covered by the declared no-data value. *)
Lemma nan_is_declared_nodata (nd : ndarray f32) (t : Affine64) (wkt : string) (v : f32) :
  isnan v = true → is_nodata (geotiff_profile nd t wkt) v = true.
Proof. intros Hv. unfold is_nodata. cbn. now rewrite Hv. Qed.

(** On equal shapes, a sample valid in both bands with a zero denominator
    comes out as NaN, which the GeoTIFF declares as no-data. *)
Lemma ndvi_zero_denominator_is_nodata (b4 b8 : masked_array f32) (out : ndarray f32)
    (i j : nat) :
  nd_wf b4 → nd_wf b8 → nd_shape b4 = nd_shape b8 →
  ndvi_of_bands b4 b8 = Ok out →
  (i < nd_rows b4)%nat → (j < nd_cols b4)%nat →
  let s4 := ma_itruediv_cell reflectance_scale (nd_get mcell_d b4 i j) in
  let s8 := ma_itruediv_cell reflectance_scale (nd_get mcell_d b8 i j) in
  cmask s4 = false → cmask s8 = false →
  f32_eqb (f32_add (cdata s8) (cdata s4)) f32_zero = true →
  nd_get nan out i j = nan ∧
  ∀ t wkt, is_nodata (geotiff_profile out t wkt) (nd_get nan out i j) = true.
Proof.
  intros W4 W8 Hs Ho Hi Hj s4 s8 M4 M8 Hz.
  destruct (ndvi_of_bands_same_shape b4 b8 W4 W8 Hs) as (out' & Eo & _ & Hget).
  assert (out' = out) as -> by congruence.
  assert (E : nd_get nan out i j = nan).
  { rewrite Hget by assumption. now apply ndvi_sample_zero_denominator. }
  split; [exact E|]. intros t wkt. apply nan_is_declared_nodata. now rewrite E.
Qed.

(** On equal shapes, a sample masked in either band comes out as the scaled
    near-infrared datum: the mask does not reach the output. *)
Lemma ndvi_masked_sample_is_nir_datum (b4 b8 : masked_array f32) (out : ndarray f32)
    (i j : nat) :
  nd_wf b4 → nd_wf b8 → nd_shape b4 = nd_shape b8 →
  ndvi_of_bands b4 b8 = Ok out →
  (i < nd_rows b4)%nat → (j < nd_cols b4)%nat →
  cmask (nd_get mcell_d b4 i j) || cmask (nd_get mcell_d b8 i j) = true →
  nd_get nan out i j
  = f32_add f32_zero
      (f32_mul f32_one
         (cdata (ma_itruediv_cell reflectance_scale (nd_get mcell_d b8 i j)))).
Proof.
  intros W4 W8 Hs Ho Hi Hj Hm.
  destruct (ndvi_of_bands_same_shape b4 b8 W4 W8 Hs) as (out' & Eo & _ & Hget).
  assert (out' = out) as -> by congruence.
  rewrite Hget by assumption. now apply ndvi_sample_masked.
Qed.

(** Without masks, a pixel that is 0 in both bands comes out as NaN. *)
Example ndvi_unmasked_zero_denominator_example :
  ndvi_of_bands (ma_astype_f32 ex_b4_unmasked) (ma_astype_f32 ex_b8_unmasked)
  = Ok (NdArray 1 2 [S754_finite false 8388609 (-24); nan]).
Proof. vm_compute. reflexivity. Qed.

(** C1: the failing window.  Red and near-infrared digital numbers
    [1000, 0 (masked), 0 (masked)] and [1000, 3000, 0 (masked)]: the sample
    masked in the red band comes out as 10066330 * 2^-25 (0.3) and the
    sample masked in both bands as 0.0, neither of them NaN, neither of
    them no-data in the GeoTIFF, whose declared no-data value is NaN. *)
Theorem ndvi_masked_samples_come_out_as_data :
  ∃ calls nd t wkt,
    _read_bands_ndvi ex_W (ex_item "S2B_c12" (Some 12)) ex_bbox None
      = MkIO calls (Ok (nd, t, wkt)) ∧
    nd_shape nd = (1%nat, 3%nat) ∧
    let p := geotiff_profile nd t wkt in
    nodata p = nan ∧
    nd_get nan nd 0 0 = S754_zero false ∧
    (cmask (nd_get (ex_nodata 0) ex_b4 0 1) = true ∧
     nd_get nan nd 0 1 = S754_finite false 10066330 (-25) ∧
     is_nodata p (nd_get nan nd 0 1) = false) ∧
    (cmask (nd_get (ex_nodata 0) ex_b4 0 2) = true ∧
     cmask (nd_get (ex_nodata 0) ex_b8 0 2) = true ∧
     nd_get nan nd 0 2 = S754_zero false ∧
     is_nodata p (nd_get nan nd 0 2) = false).
Proof.
  eexists _, _, _, _. split; [vm_compute; reflexivity|].
  vm_compute. repeat split.
Qed.
